(** * Rath client, [store/userStore.ts]: the notebook importer and the form store

    A shallow embedding of [UserStore.loadNotebook] (lines 330-401) and
    [UserStore.updateForm] (lines 91-96) of
    [packages/rath-client/src/store/userStore.ts].

    [loadNotebook] is an async method whose effects are the objects of the
    zip library it constructs, the calls it makes on four collaborator
    stores and the calls on [notify].  It is embedded as a computation in a
    state-and-exception monad whose state is the trace of those effects, in
    program order.  Every [await] of the source is on a value produced by
    the line itself, so the sequential monad is the order in which the
    effects are issued. *)

From stdpp Require Import base list strings gmap.

Set Warnings "-register-all".

(** ** Values of the JavaScript runtime *)

(** What [JSON.parse] can return.  A property that is absent reads as
    [undefined], written [None] below.  Numbers are carried but never
    inspected by the importer. *)
Inductive JSValue : Type :=
  | JNull
  | JBool (b : bool)
  | JNumber (n : Z)
  | JString (s : string)
  | JArray (elements : list JSValue)
  | JObject (properties : list (string * JSValue)).

(** A thrown value, by what [Error.prototype.toString] reads of it. *)
Record JSError : Type := mkError { err_name : string; err_message : string }.

Definition Error (message : string) : JSError := mkError "Error" message.
Definition TypeError (message : string) : JSError := mkError "TypeError" message.

(** [`${error}`]: the name, the message, or both joined by a colon. *)
Definition toString (e : JSError) : string :=
  if String.eqb (err_name e) "" then err_message e
  else if String.eqb (err_message e) "" then err_name e
  else err_name e +:+ ": " +:+ err_message e.

(** The outcome of an expression: a value, or a thrown error (a rejected
    promise, once awaited). *)
Inductive result (A : Type) : Type :=
  | Ok (a : A)
  | Throw (e : JSError).
Arguments Ok {A} a.
Arguments Throw {A} e.

(** One entry of the archive as [ZipReader.getEntries] lists it:
    [getData] is what [entry.getData(new TextWriter())] resolves to. *)
Record Entry : Type := mkEntry { filename : string; getData : result string }.

(** ** Observable effects *)

Inductive Resource : Type := ZipReader | TextWriter.

(** The calls on the collaborator stores of [getGlobalStore()]. *)
Inductive SinkCall : Type :=
  | dataSourceStore_loadBackupDataStore (data meta : JSValue)
  | collectionStore_loadBackup (payload : JSValue)
  | causalStore_load (payload : JSValue)
  | dashboardStore_loadAll (payload : JSValue).

Inductive NotifyType : Type := type_success | type_error.

Record Notification : Type :=
  mkNotification { title : string; type : NotifyType; content : string }.

(** [New r] is a constructor call [new r(...)]; [Close r] is the release
    operation of the zip library ([zipReader.close()]). *)
Inductive Event : Type :=
  | New (r : Resource)
  | Close (r : Resource)
  | Call (c : SinkCall)
  | Notify (n : Notification).

Definition trace : Type := list Event.

Fixpoint sink_calls (tr : trace) : list SinkCall :=
  match tr with
  | [] => []
  | Call c :: tr' => c :: sink_calls tr'
  | _ :: tr' => sink_calls tr'
  end.

Fixpoint notifications (tr : trace) : list Notification :=
  match tr with
  | [] => []
  | Notify n :: tr' => n :: notifications tr'
  | _ :: tr' => notifications tr'
  end.

Definition Resource_eqb (a b : Resource) : bool :=
  match a, b with
  | ZipReader, ZipReader | TextWriter, TextWriter => true
  | _, _ => false
  end.

Fixpoint acquired (r : Resource) (tr : trace) : nat :=
  match tr with
  | [] => 0
  | New r' :: tr' => (if Resource_eqb r r' then 1 else 0) + acquired r tr'
  | _ :: tr' => acquired r tr'
  end.

Fixpoint released (r : Resource) (tr : trace) : nat :=
  match tr with
  | [] => 0
  | Close r' :: tr' => (if Resource_eqb r r' then 1 else 0) + released r tr'
  | _ :: tr' => released r tr'
  end.

(** Every resource constructed in the trace has been closed in it. *)
Definition all_released (tr : trace) : Prop :=
  forall r, acquired r tr <= released r tr.

(** ** The collaborators *)

(** The parts of the runtime [loadNotebook] calls into and that are not
    code of this file: the zip library, [JSON.parse] and the four stores.
    [sink_throws tr c] is the error call [c] raises when made after the
    effects [tr], if any; a store may answer by its history. *)
Record Runtime : Type := mkRuntime {
  ReadableStream : Type;
  File : Type;
  File_stream : File -> ReadableStream;
  ZipReader_getEntries : ReadableStream -> result (list Entry);
  JSON_parse : string -> result JSValue;
  sink_throws : trace -> SinkCall -> option JSError
}.

(** [body: ReadableStream<Uint8Array> | File] *)
Inductive Body (rt : Runtime) : Type :=
  | OfStream (s : ReadableStream rt)
  | OfFile (f : File rt).
Arguments OfStream {rt} s.
Arguments OfFile {rt} f.

(** Modelled from the spec: the string enum [IKRFComponents] of
    [utils/download], which is not in the sources; the spec gives
    Kind ∈ {meta, data, collection, causal, dashboard}. *)
Module IKRFComponents.
Definition meta : string := "meta".
Definition data : string := "data".
Definition collection : string := "collection".
Definition causal : string := "causal".
Definition dashboard : string := "dashboard".
End IKRFComponents.

(** ** The effect monad *)

Definition M (A : Type) : Type := trace -> trace * result A.

Definition ret {A} (a : A) : M A := fun tr => (tr, Ok a).

Definition throw {A} (e : JSError) : M A := fun tr => (tr, Throw e).

Definition bind {A B} (m : M A) (k : A -> M B) : M B :=
  fun tr =>
    match m tr with
    | (tr', Ok a) => k a tr'
    | (tr', Throw e) => (tr', Throw e)
    end.

(** [try { m } catch (error) { handler(error) }] *)
Definition try_catch {A} (m : M A) (handler : JSError -> M A) : M A :=
  fun tr =>
    match m tr with
    | (tr', Ok a) => (tr', Ok a)
    | (tr', Throw e) => handler e tr'
    end.

Definition emit (ev : Event) : M unit := fun tr => (tr ++ [ev], Ok tt).

(** A pure expression that may throw, or an awaited promise. *)
Definition await {A} (r : result A) : M A := fun tr => (tr, r).

Declare Scope js_scope.
Delimit Scope js_scope with js.
Notation "'let*' x ':=' m 'in' k" := (bind m (fun x => k))
  (at level 10, x name, m at level 100, k at level 200) : js_scope.
Notation "m1 ';;' m2" := (bind m1 (fun _ => m2))
  (at level 100, m2 at level 200, right associativity) : js_scope.

(** ** Reading JSON values *)

Fixpoint own_property (k : string) (properties : list (string * JSValue)) : option JSValue :=
  match properties with
  | [] => None
  | (k', v) :: rest => if String.eqb k k' then Some v else own_property k rest
  end.

(** [v.k] for the keys the importer reads ([items], [name], [key], [type]):
    none of them is a property of a prototype, so a primitive, an array or
    an object without the key reads [undefined]; reading from [null]
    throws. *)
Definition get_prop (v : JSValue) (k : string) : result (option JSValue) :=
  match v with
  | JNull => Throw (TypeError ("Cannot read properties of null (reading '" +:+ k +:+ "')"))
  | JObject properties => Ok (own_property k properties)
  | _ => Ok None
  end.

(** [v === s] for a string constant [s]. *)
Definition strict_eq_string (v : option JSValue) (s : string) : bool :=
  match v with
  | Some (JString x) => String.eqb x s
  | _ => false
  end.

(** The values [for await (... of v)] draws from [v]: the elements of an
    array, the characters of a string; nothing else JSON holds is iterable. *)
Definition iterate (v : option JSValue) : result (list JSValue) :=
  match v with
  | Some (JArray elements) => Ok elements
  | Some (JString s) => Ok (map (fun c => JString (String c EmptyString)) (String.list_ascii_of_string s))
  | _ => Throw (TypeError "manifest.items is not iterable")
  end.

(** [items.find(item => item.type === IKRFComponents.meta)] on an array. *)
Fixpoint Array_find_meta (elements : list JSValue) : result (option JSValue) :=
  match elements with
  | [] => Ok None
  | item :: rest =>
      match get_prop item "type" with
      | Throw e => Throw e
      | Ok t => if strict_eq_string t IKRFComponents.meta then Ok (Some item)
                else Array_find_meta rest
      end
  end.

(** [manifest.items.find(...)]: only an array has the method. *)
Definition find_meta (items : option JSValue) : result (option JSValue) :=
  match items with
  | Some (JArray elements) => Array_find_meta elements
  | _ => Throw (TypeError "manifest.items.find is not a function")
  end.

(** [result.find(which => which.filename === name)] *)
Definition find_entry (result : list Entry) (name : option JSValue) : option Entry :=
  List.find (fun which => strict_eq_string name (filename which)) result.

(** ** [loadNotebook] *)

Definition notify (n : Notification) : M unit := emit (Notify n).

(** The argument of both [notify] calls of [loadNotebook]. *)
Definition load_notebook_error (error : JSError) : Notification :=
  {| title := "Load Notebook Error"; type := type_error; content := toString error |}.

Section LoadNotebook.
Variable rt : Runtime.

(** A call on a store: the call is made, then the store may throw (or,
    for the awaited [loadBackupDataStore], reject).  What a promise that
    the code does not await does after the call returns is no part of the
    trace. *)
Definition call (c : SinkCall) : M unit :=
  fun tr =>
    match sink_throws rt tr c with
    | None => (tr ++ [Call c], Ok tt)
    | Some e => (tr ++ [Call c], Throw e)
    end.

(** Lines 353-384: the body of the inner [try]. *)
Definition route (result : list Entry) (items : option JSValue)
    (entry : Entry) (key : option JSValue) : M unit :=
  (let* res := await (getData entry) in
   if strict_eq_string key IKRFComponents.data then
     let* metaFile := await (find_meta items) in
     match metaFile with
     | None => ret tt
     | Some metaFile =>
         let* metaFile_name := await (get_prop metaFile "name") in
         match find_entry result metaFile_name with
         | None => ret tt
         | Some meta =>
             emit (New TextWriter) ;;
             let* rm := await (getData meta) in
             let* d := await (JSON_parse rt res) in
             let* m := await (JSON_parse rt rm) in
             call (dataSourceStore_loadBackupDataStore d m)
         end
     end
   else if strict_eq_string key IKRFComponents.collection then
     let* p := await (JSON_parse rt res) in
     call (collectionStore_loadBackup p)
   else if strict_eq_string key IKRFComponents.causal then
     let* p := await (JSON_parse rt res) in
     call (causalStore_load p)
   else if strict_eq_string key IKRFComponents.dashboard then
     let* p := await (JSON_parse rt res) in
     call (dashboardStore_loadAll p)
   else ret tt)%js.

(** Lines 347-392: one turn of the loop, [name] and [key] bound. *)
Definition loop_body (result : list Entry) (items : option JSValue)
    (name key : option JSValue) : M unit :=
  match find_entry result name with
  | None => ret tt
  | Some entry =>
      if strict_eq_string key IKRFComponents.meta then ret tt
      else
        (emit (New TextWriter) ;;
         try_catch (route result items entry key)
                   (fun error => notify (load_notebook_error error)))%js
  end.

(** Line 346: [for await (const { name, key } of manifest.items)], over
    the values [rest] still to be drawn. *)
Fixpoint for_await (result : list Entry) (items : option JSValue)
    (rest : list JSValue) : M unit :=
  match rest with
  | [] => ret tt
  | item :: rest' =>
      (let* name := await (get_prop item "name") in
       let* key := await (get_prop item "key") in
       loop_body result items name key ;;
       for_await result items rest')%js
  end.

Definition stream_of (body : Body rt) : ReadableStream rt :=
  match body with
  | OfStream s => s
  | OfFile f => File_stream rt f
  end.

(** Lines 332-393: the body of the outer [try].  [getGlobalStore()] (line
    345) reads the stores and leaves no trace. *)
Definition loadNotebook_try (body : Body rt) : M unit :=
  (emit (New ZipReader) ;;
   let* result := await (ZipReader_getEntries rt (stream_of body)) in
   match List.find (fun entry => String.eqb (filename entry) "parse_map.json") result with
   | None => throw (Error "Cannot find parse_map.json")
   | Some manifestFile =>
       emit (New TextWriter) ;;
       let* text := await (getData manifestFile) in
       let* manifest := await (JSON_parse rt text) in
       let* items := await (get_prop manifest "items") in
       let* values := await (iterate items) in
       for_await result items values
   end)%js.

Definition loadNotebook (body : Body rt) : M unit :=
  try_catch (loadNotebook_try body)
            (fun error => notify (load_notebook_error error)).

End LoadNotebook.

(** ** Sample archives

    A runtime given by tables, to run the importer on concrete archives:
    a stream stands for what the zip reader makes of it, and [JSON.parse]
    is a table from the texts in use to their values. *)

Fixpoint table_lookup (text : string) (table : list (string * JSValue)) : result JSValue :=
  match table with
  | [] => Throw (mkError "SyntaxError" "Unexpected token")
  | (t, v) :: rest => if String.eqb text t then Ok v else table_lookup text rest
  end.

Definition table_runtime (table : list (string * JSValue))
    (throws : trace -> SinkCall -> option JSError) : Runtime :=
  {| ReadableStream := result (list Entry);
     File := result (list Entry);
     File_stream := fun f => f;
     ZipReader_getEntries := fun s => s;
     JSON_parse := fun text => table_lookup text table;
     sink_throws := throws |}.

Definition never_throws : trace -> SinkCall -> option JSError := fun _ _ => None.

Definition parse_map_item (name key type : string) : JSValue :=
  JObject [("name", JString name); ("key", JString key); ("type", JString type)].

(** The manifest of the spec's first testable property. *)
Definition sample_items : list JSValue :=
  [parse_map_item "a.json" "data" "data";
   parse_map_item "m.json" "meta" "meta";
   parse_map_item "c.json" "collection" "collection"].

Definition sample_manifest : JSValue :=
  JObject [("items", JArray sample_items); ("version", JString "1")].

(** A manifest with a [data] item and no [meta] item. *)
Definition lone_data_items : list JSValue :=
  [parse_map_item "a.json" "data" "data";
   parse_map_item "c.json" "collection" "collection"].

(** A manifest whose first item names an entry that does not parse. *)
Definition broken_items : list JSValue :=
  [parse_map_item "bad.json" "collection" "collection";
   parse_map_item "c.json" "collection" "collection"].

(** A manifest with no [items]. *)
Definition itemless_manifest : JSValue := JObject [("version", JString "1")].

Definition sample_table : list (string * JSValue) :=
  [("manifest", sample_manifest);
   ("lone data", JObject [("items", JArray lone_data_items)]);
   ("broken", JObject [("items", JArray broken_items)]);
   ("itemless", itemless_manifest);
   ("null item", JObject [("items", JArray [parse_map_item "c.json" "collection" "collection";
                                            JNull;
                                            parse_map_item "c.json" "collection" "collection"])]);
   ("string items", JObject [("items", JString "ab")]);
   ("[1,2]", JArray [JNumber 1; JNumber 2]);
   ("{}", JObject []);
   ("[]", JArray [])].

Definition sample_rt : Runtime := table_runtime sample_table never_throws.

Definition archive (entries : list Entry) : Body sample_rt :=
  OfStream (rt := sample_rt) (Ok entries).

Definition payload_entries : list Entry :=
  [mkEntry "a.json" (Ok "[1,2]");
   mkEntry "m.json" (Ok "{}");
   mkEntry "bad.json" (Ok "{oops");
   mkEntry "c.json" (Ok "[]")].

Definition sample_entries : list Entry :=
  payload_entries ++ [mkEntry "parse_map.json" (Ok "manifest")].

Definition sample_body : Body sample_rt := archive sample_entries.

(** ** The routing table, as the specification words it

    These definitions follow the text of the specification (section 4.1,
    steps 2-4) and are compared with [loadNotebook] below; they thread no
    trace and catch nothing. *)

(** The entry called [name], located, extracted and parsed. *)
Definition payload (rt : Runtime) (result : list Entry) (name : option JSValue) : option JSValue :=
  match find_entry result name with
  | None => None
  | Some entry =>
      match getData entry with
      | Throw _ => None
      | Ok text =>
          match JSON_parse rt text with
          | Throw _ => None
          | Ok v => Some v
          end
      end
  end.

(** Step 4d: the call a manifest item is routed to by its [key], if any. *)
Definition routed_call (rt : Runtime) (result : list Entry) (items : option JSValue)
    (item : JSValue) : option SinkCall :=
  match get_prop item "name", get_prop item "key" with
  | Ok name, Ok (Some (JString key)) =>
      if String.eqb key "data" then
        match find_meta items with
        | Ok (Some metaFile) =>
            match get_prop metaFile "name" with
            | Ok metaFile_name =>
                match payload rt result name, payload rt result metaFile_name with
                | Some d, Some m => Some (dataSourceStore_loadBackupDataStore d m)
                | _, _ => None
                end
            | Throw _ => None
            end
        | _ => None
        end
      else if String.eqb key "collection" then
        option_map collectionStore_loadBackup (payload rt result name)
      else if String.eqb key "causal" then
        option_map causalStore_load (payload rt result name)
      else if String.eqb key "dashboard" then
        option_map dashboardStore_loadAll (payload rt result name)
      else None
  | _, _ => None
  end.

(** Steps 1-3: the entries of the archive, the manifest's [items] and the
    values the loop draws from it; [None] on a top-level failure. *)
Definition manifest_of (rt : Runtime) (body : Body rt)
    : option (list Entry * option JSValue * list JSValue) :=
  match ZipReader_getEntries rt (stream_of rt body) with
  | Throw _ => None
  | Ok result =>
      match List.find (fun entry => String.eqb (filename entry) "parse_map.json") result with
      | None => None
      | Some manifestFile =>
          match getData manifestFile with
          | Throw _ => None
          | Ok text =>
              match JSON_parse rt text with
              | Throw _ => None
              | Ok manifest =>
                  match get_prop manifest "items" with
                  | Throw _ => None
                  | Ok items =>
                      match iterate items with
                      | Throw _ => None
                      | Ok values => Some (result, items, values)
                      end
                  end
              end
          end
      end
  end.

(** The items the loop reaches: those before the first [null], whose
    destructuring at the head of the loop throws. *)
Fixpoint drawn (values : list JSValue) : list JSValue :=
  match values with
  | [] => []
  | JNull :: _ => []
  | item :: rest => item :: drawn rest
  end.

Definition option_list {A} (o : option A) : list A :=
  match o with
  | Some a => [a]
  | None => []
  end.

(** [item.type === IKRFComponents.meta] *)
Definition type_is_meta (item : JSValue) : Prop :=
  get_prop item "type" = Ok (Some (JString IKRFComponents.meta)).

(** [item.type] reads, and is not [meta]. *)
Definition type_is_not_meta (item : JSValue) : Prop :=
  exists t, get_prop item "type" = Ok t /\ strict_eq_string t IKRFComponents.meta = false.

(** [metaFile] is the first item of the manifest whose [type] is [meta]. *)
Definition first_meta (its : list JSValue) (metaFile : JSValue) : Prop :=
  exists pre post,
    its = pre ++ metaFile :: post /\ Forall type_is_not_meta pre /\ type_is_meta metaFile.

(** [manifest.items] is something the loop can iterate. *)
Definition has_iterable_items (manifest : JSValue) : bool :=
  match get_prop manifest "items" with
  | Ok (Some (JArray _)) | Ok (Some (JString _)) => true
  | _ => false
  end.

(** What one manifest item leaves in the trace: the call it is routed to
    and nothing else on a store, at most one notification, no release; and
    nothing at all when its [key] is [meta]. *)
Definition item_block (rt : Runtime) (result : list Entry) (items : option JSValue)
    (item : JSValue) (blk : trace) : Prop :=
  sink_calls blk = option_list (routed_call rt result items item)
  /\ length (notifications blk) <= 1
  /\ (forall x, released x blk = 0)
  /\ (get_prop item "key" = Ok (Some (JString IKRFComponents.meta)) -> blk = []).

(** The calls of a whole import, in manifest order. *)
Definition expected_calls (rt : Runtime) (body : Body rt) : list SinkCall :=
  match manifest_of rt body with
  | None => []
  | Some (result, items, values) =>
      flat_map (fun item => option_list (routed_call rt result items item)) (drawn values)
  end.

(** The outcome of a top-level abort: no store was called, and one error
    notification went out. *)
Definition top_level_failure (tr : trace) : Prop :=
  sink_calls tr = [] /\ exists error, notifications tr = [load_notebook_error error].

(** ** The form store (lines 11-96) *)

Module UserStore.

Record INotebook : Type := {
  notebook_id : Z;
  notebook_name : string;
  size : Z;
  createAt : Z;
  downLoadURL : string
}.

Record IWorkspace : Type := {
  workspace_id : Z;
  workspace_name : string;
  notebooks : option (list INotebook)
}.

Record IOrganization : Type := {
  organization_name : string;
  organization_id : Z;
  workspaces : option (list IWorkspace)
}.

Record IUserInfo : Type := {
  info_userName : string;
  info_email : string;
  eduEmail : string;
  info_phone : string;
  avatarURL : string;
  organizations : option (list IOrganization)
}.

(** [keyof ILoginForm | keyof ISignUpForm] *)
Inductive FieldKey : Type :=
  | userName | password | email | checkPassword | phone | certCode | invCode.

Definition field_name (fieldKey : FieldKey) : string :=
  match fieldKey with
  | userName => "userName"
  | password => "password"
  | email => "email"
  | checkPassword => "checkPassword"
  | phone => "phone"
  | certCode => "certCode"
  | invCode => "invCode"
  end.

(** Modelled from the spec: [IAccessPageKeys] of [../interfaces], which
    is not in the sources; it names the two forms, [login] and
    [signup]. *)
Inductive IAccessPageKeys : Type := page_login | page_signup.

(** The observable fields of the class.  A form is the object the code
    indexes by property name, [this[formKey][fieldKey]]. *)
Record Store : Type := mkStore {
  login : gmap string string;
  signup : gmap string string;
  info : option IUserInfo
}.

Definition init : Store :=
  {| login := <["userName" := ""]> (<["password" := ""]> (<["email" := ""]> ∅));
     signup := <["userName" := ""]> (<["password" := ""]> (<["checkPassword" := ""]>
               (<["email" := ""]> (<["phone" := ""]> (<["certCode" := ""]>
               (<["invCode" := ""]> ∅))))));
     info := None |}.

Definition destroy (st : Store) : Store :=
  {| login := login st; signup := signup st; info := None |}.

Definition loggedIn (st : Store) : bool :=
  match info st with
  | Some _ => true
  | None => false
  end.

(** [this[formKey]] *)
Definition form (formKey : IAccessPageKeys) (st : Store) : gmap string string :=
  match formKey with
  | page_login => login st
  | page_signup => signup st
  end.

(** [this[formKey][fieldKey] = value] *)
Definition set_field (formKey : IAccessPageKeys) (k value : string) (st : Store) : Store :=
  match formKey with
  | page_login => {| login := <[k := value]> (login st); signup := signup st; info := info st |}
  | page_signup => {| login := login st; signup := <[k := value]> (signup st); info := info st |}
  end.

(** [fieldKey in obj]: the seven field names are no properties of
    [Object.prototype], so the test is on the object's own keys. *)
Definition has_property (k : string) (obj : gmap string string) : bool :=
  match obj !! k with
  | Some _ => true
  | None => false
  end.

Definition updateForm (formKey : IAccessPageKeys) (fieldKey : FieldKey) (value : string)
    (st : Store) : Store :=
  if has_property (field_name fieldKey) (form formKey st)
  then set_field formKey (field_name fieldKey) value st
  else st.

End UserStore.

(** ** Sequences of calls on the form store *)

(** The synchronous methods of the class that write its fields. *)
Inductive FormCall : Type :=
  | call_init
  | call_destroy
  | call_updateForm (formKey : UserStore.IAccessPageKeys) (fieldKey : UserStore.FieldKey)
                    (value : string).

Definition perform (c : FormCall) (st : UserStore.Store) : UserStore.Store :=
  match c with
  | call_init => UserStore.init
  | call_destroy => UserStore.destroy st
  | call_updateForm formKey fieldKey value => UserStore.updateForm formKey fieldKey value st
  end.

(** The store after the constructor (which runs [init]) and then [calls],
    in order. *)
Definition after_calls (calls : list FormCall) : UserStore.Store :=
  foldl (fun st c => perform c st) UserStore.init calls.

(** The property names of [ILoginForm] and of [ISignUpForm]. *)
Definition login_fields : gset string := {[ "userName"; "password"; "email" ]}.

Definition signup_fields : gset string :=
  {[ "userName"; "password"; "checkPassword"; "email"; "phone"; "certCode"; "invCode" ]}.

Definition form_fields (formKey : UserStore.IAccessPageKeys) : gset string :=
  match formKey with
  | UserStore.page_login => login_fields
  | UserStore.page_signup => signup_fields
  end.

(** ** More on the importer *)

(** Lines 369-380: the three kinds whose payload goes to a store alone. *)
Definition single_payload_call (key : string) (payload : JSValue) : option SinkCall :=
  if String.eqb key IKRFComponents.collection then Some (collectionStore_loadBackup payload)
  else if String.eqb key IKRFComponents.causal then Some (causalStore_load payload)
  else if String.eqb key IKRFComponents.dashboard then Some (dashboardStore_loadAll payload)
  else None.

(** [key] is one of the values the loop tests for (lines 348-380). *)
Definition known_kind (key : option JSValue) : bool :=
  strict_eq_string key IKRFComponents.meta
  || strict_eq_string key IKRFComponents.data
  || strict_eq_string key IKRFComponents.collection
  || strict_eq_string key IKRFComponents.causal
  || strict_eq_string key IKRFComponents.dashboard.

(** The same runtime with other stores behind [getGlobalStore()]. *)
Definition with_sinks (rt : Runtime) (throws : trace -> SinkCall -> option JSError) : Runtime :=
  {| ReadableStream := ReadableStream rt;
     File := File rt;
     File_stream := File_stream rt;
     ZipReader_getEntries := ZipReader_getEntries rt;
     JSON_parse := JSON_parse rt;
     sink_throws := throws |}.

Definition same_body {rt : Runtime} (throws : trace -> SinkCall -> option JSError)
    (body : Body rt) : Body (with_sinks rt throws) :=
  match body with
  | OfStream s => OfStream (rt := with_sinks rt throws) s
  | OfFile f => OfFile (rt := with_sinks rt throws) f
  end.


(** ** One item within a whole import *)

(** The calls the items [its] are routed to, one after the other. *)
Definition routed_calls (rt : Runtime) (result : list Entry) (items : option JSValue)
    (its : list JSValue) : list SinkCall :=
  flat_map (fun item => option_list (routed_call rt result items item)) its.






(** ** [openNotebook] (lines 311-328) *)

(** What [fetch] resolves to, by the fields [openNotebook] reads. *)
Record Response (rt : Runtime) : Type := mkResponse {
  response_ok : bool;
  statusText : string;
  response_body : option (ReadableStream rt)
}.
Arguments mkResponse {rt} _ _ _.
Arguments response_ok {rt} _.
Arguments statusText {rt} _.
Arguments response_body {rt} _.

Definition download_notebook_error (error : JSError) : Notification :=
  {| title := "[download notebook]"; type := type_error; content := toString error |}.

Section OpenNotebook.
Variable rt : Runtime.

(** [fetch(downLoadURL, { method: 'GET' })] *)
Variable fetch : string -> result (Response rt).

Definition openNotebook (downLoadURL : string) : M unit :=
  try_catch
    (let* data := await (fetch downLoadURL) in
     if negb (response_ok data) then throw (Error (statusText data))
     else
       match response_body data with
       | None => throw (Error "Request got empty body")
       | Some body => loadNotebook rt (OfStream body)
       end)%js
    (fun error => notify (download_notebook_error error)).

(** The error the download ends with before [loadNotebook] is entered,
    if any (lines 313-319). *)
Definition download_failure (fetched : result (Response rt)) : option JSError :=
  match fetched with
  | Throw e => Some e
  | Ok data =>
      if negb (response_ok data) then Some (Error (statusText data))
      else
        match response_body data with
        | None => Some (Error "Request got empty body")
        | Some _ => None
        end
  end.

End OpenNotebook.

(** ** Workspaces and notebooks (lines 228-277) *)

(** The effects of the two methods: the requests they send and what they
    notify. *)
Inductive ApiEvent : Type :=
  | Requested (url : string) (organizationId : Z)
  | Notified (n : Notification).

(** [getMainServiceAddress] of [utils/user] and [request.get] of
    [utils/request] are not in the sources.  [request_workspaceList url id]
    is what [await request.get(url, { organizationId: id })] gives at line
    235, by the field read of it, and [request_notebookList] the same at
    line 262. *)
Record Api : Type := mkApi {
  getMainServiceAddress : string -> string;
  request_workspaceList : string -> Z -> result (list UserStore.IWorkspace);
  request_notebookList : string -> Z -> result (list UserStore.INotebook)
}.

(** The first element that satisfies [p], replaced by its image: the
    assignment to a field of the object [find] returned. *)
Fixpoint update_first {A} (p : A -> bool) (f : A -> A) (l : list A) : list A :=
  match l with
  | [] => []
  | x :: l' => if p x then f x :: l' else x :: update_first p f l'
  end.

Definition with_workspaces (ws : list UserStore.IWorkspace) (org : UserStore.IOrganization)
    : UserStore.IOrganization :=
  {| UserStore.organization_name := UserStore.organization_name org;
     UserStore.organization_id := UserStore.organization_id org;
     UserStore.workspaces := Some ws |}.

Definition with_notebooks (nbs : list UserStore.INotebook) (wsp : UserStore.IWorkspace)
    : UserStore.IWorkspace :=
  {| UserStore.workspace_id := UserStore.workspace_id wsp;
     UserStore.workspace_name := UserStore.workspace_name wsp;
     UserStore.notebooks := Some nbs |}.

(** The store with the organizations of [info] mapped by [f]; the forms
    and the other fields of [info] stay. *)
Definition map_organizations
    (f : list UserStore.IOrganization -> list UserStore.IOrganization)
    (st : UserStore.Store) : UserStore.Store :=
  match UserStore.info st with
  | None => st
  | Some i =>
      match UserStore.organizations i with
      | None => st
      | Some orgs =>
          {| UserStore.login := UserStore.login st;
             UserStore.signup := UserStore.signup st;
             UserStore.info := Some
               {| UserStore.info_userName := UserStore.info_userName i;
                  UserStore.info_email := UserStore.info_email i;
                  UserStore.eduEmail := UserStore.eduEmail i;
                  UserStore.info_phone := UserStore.info_phone i;
                  UserStore.avatarURL := UserStore.avatarURL i;
                  UserStore.organizations := Some (f orgs) |} |}
      end
  end.

Definition has_id (organizationId : Z) (org : UserStore.IOrganization) : bool :=
  Z.eqb (UserStore.organization_id org) organizationId.

Definition has_workspace_id (workspaceId : Z) (wsp : UserStore.IWorkspace) : bool :=
  Z.eqb (UserStore.workspace_id wsp) workspaceId.

(** [this.info?.organizations?.find(org => org.id === organizationId)] *)
Definition find_organization (st : UserStore.Store) (organizationId : Z)
    : option UserStore.IOrganization :=
  match UserStore.info st with
  | None => None
  | Some i =>
      match UserStore.organizations i with
      | None => None
      | Some orgs => List.find (has_id organizationId) orgs
      end
  end.

(** [...?.workspaces?.find(wsp => wsp.id === workspaceId)] *)
Definition find_workspace (st : UserStore.Store) (organizationId workspaceId : Z)
    : option UserStore.IWorkspace :=
  match find_organization st organizationId with
  | None => None
  | Some org =>
      match UserStore.workspaces org with
      | None => None
      | Some ws => List.find (has_workspace_id workspaceId) ws
      end
  end.

Definition api_error (title : string) (error : JSError) : Notification :=
  {| title := title; type := type_error; content := toString error |}.

(** [which.notebooks = result.notebookList], seen from the organization
    that holds the workspace [which]. *)
Definition assign_notebooks (workspaceId : Z) (notebookList : list UserStore.INotebook)
    (org : UserStore.IOrganization) : UserStore.IOrganization :=
  match UserStore.workspaces org with
  | None => org
  | Some ws =>
      with_workspaces
        (update_first (has_workspace_id workspaceId) (with_notebooks notebookList) ws) org
  end.

Section Workspaces.
Variable api : Api.

(** Lines 228-250.  The result is the store, the effects and the value
    returned, [None] for [null].  A field that is absent is [None]; a
    [null] there, which the interfaces allow, passes the tests of these
    two methods as an empty list does. *)
Definition getWorkspaces (organizationId : Z) (st : UserStore.Store)
    : UserStore.Store * list ApiEvent * option (list UserStore.IWorkspace) :=
  match find_organization st organizationId with
  | None => (st, [], None)
  | Some which =>
      match UserStore.workspaces which with
      | Some _ => (st, [], None)
      | None =>
          let url := getMainServiceAddress api "/api/ce/organization/workspace/list" in
          match request_workspaceList api url organizationId with
          | Ok workspaceList =>
              (map_organizations
                 (update_first (has_id organizationId) (with_workspaces workspaceList)) st,
               [Requested url organizationId],
               Some workspaceList)
          | Throw error =>
              (st,
               [Requested url organizationId;
                Notified (api_error "[/api/ce/organization/workspace/list]" error)],
               None)
          end
      end
  end.

(** Lines 252-277. *)
Definition getNotebooks (organizationId workspaceId : Z) (forceUpdate : bool)
    (st : UserStore.Store)
    : UserStore.Store * list ApiEvent * option (list UserStore.INotebook) :=
  match find_workspace st organizationId workspaceId with
  | None => (st, [], None)
  | Some which =>
      if negb forceUpdate && bool_decide (is_Some (UserStore.notebooks which))
      then (st, [], None)
      else
        let url := getMainServiceAddress api "/api/ce/notebook/list" in
        match request_notebookList api url organizationId with
        | Ok notebookList =>
            (map_organizations
               (update_first (has_id organizationId)
                  (assign_notebooks workspaceId notebookList)) st,
             [Requested url organizationId],
             Some notebookList)
        | Throw error =>
            (st,
             [Requested url organizationId;
              Notified (api_error "[/api/ce/notebook/list]" error)],
             None)
        end
  end.

End Workspaces.

(** ** Sample responses and a sample account *)

Definition sample_fetch (url : string) : result (Response sample_rt) :=
  if String.eqb url "https://rath.example/notebook.krf"
  then Ok (mkResponse (rt := sample_rt) true "OK" (Some (Ok sample_entries)))
  else Ok (mkResponse (rt := sample_rt) false "Not Found" None).

Definition sample_workspaces : list UserStore.IWorkspace :=
  [ {| UserStore.workspace_id := 10; UserStore.workspace_name := "alpha";
       UserStore.notebooks := None |};
    {| UserStore.workspace_id := 11; UserStore.workspace_name := "beta";
       UserStore.notebooks := None |} ].

Definition sample_notebooks : list UserStore.INotebook :=
  [ {| UserStore.notebook_id := 100; UserStore.notebook_name := "first";
       UserStore.size := 2048; UserStore.createAt := 1670000000;
       UserStore.downLoadURL := "https://rath.example/notebook.krf" |} ].

Definition sample_api : Api :=
  {| getMainServiceAddress := fun path => "https://rath.example" +:+ path;
     request_workspaceList := fun _ id =>
       if Z.eqb id 1 then Ok sample_workspaces else Throw (Error "403");
     request_notebookList := fun _ _ => Ok sample_notebooks |}.

Definition sample_organization (id : Z) (name : string) : UserStore.IOrganization :=
  {| UserStore.organization_name := name; UserStore.organization_id := id;
     UserStore.workspaces := None |}.

(** A store after [getPersonalInfo] and [getOrganizations]: logged in,
    two organizations, no workspace loaded yet. *)
Definition sample_store : UserStore.Store :=
  {| UserStore.login := UserStore.login UserStore.init;
     UserStore.signup := UserStore.signup UserStore.init;
     UserStore.info := Some
       {| UserStore.info_userName := "ada"; UserStore.info_email := "ada@rath.example";
          UserStore.eduEmail := ""; UserStore.info_phone := ""; UserStore.avatarURL := "";
          UserStore.organizations :=
            Some [sample_organization 1 "acme"; sample_organization 2 "other"] |} |}.

(** ** Proof steps for runs of the monad *)

Ltac run := unfold bind, ret, await, emit, throw, try_catch, notify, call in *.

Ltac kinds :=
  unfold IKRFComponents.meta, IKRFComponents.data, IKRFComponents.collection,
    IKRFComponents.causal, IKRFComponents.dashboard in *.

Ltac split_on_match :=
  match goal with
  | |- context [match ?x with _ => _ end] => destruct x eqn:?
  end.

(** Closes [exists evs r, (tr ++ ..., r0) = (tr ++ evs, r) /\ ...] once the
    run has been reduced to a pair. *)
Ltac close_block :=
  first
    [ eexists [], _; rewrite app_nil_r;
      split; [reflexivity | repeat split; intros; reflexivity]
    | eexists _, _; split;
      [ rewrite <- ?app_assoc; reflexivity | repeat split; intros; reflexivity ] ].

(** * Properties *)

(** ** The form store *)

Lemma form_set_field_same formKey k value st :
  UserStore.form formKey (UserStore.set_field formKey k value st) !! k = Some value.
Proof. destruct formKey; simpl; apply lookup_insert_eq. Qed.

Lemma form_set_field_other formKey k value st formKey' k' :
  (formKey', k') <> (formKey, k) ->
  UserStore.form formKey' (UserStore.set_field formKey k value st) !! k'
  = UserStore.form formKey' st !! k'.
Proof.
  intros Hne.
  destruct formKey, formKey'; simpl; try reflexivity;
    apply lookup_insert_ne; intros ->; apply Hne; reflexivity.
Qed.

(** C10.  [updateForm(formKey, fieldKey, value)] writes [value] at
    [this[formKey][fieldKey]] when [fieldKey] is a property of that form,
    and returns the store as it was when it is not; either way every other
    property of either form reads as before, and so does [info]. *)
Theorem updateForm_frame :
  forall (formKey : UserStore.IAccessPageKeys) (fieldKey : UserStore.FieldKey)
         (value : string) (st : UserStore.Store),
    let st' := UserStore.updateForm formKey fieldKey value st in
    (is_Some (UserStore.form formKey st !! UserStore.field_name fieldKey) ->
       UserStore.form formKey st' !! UserStore.field_name fieldKey = Some value)
    /\ (UserStore.form formKey st !! UserStore.field_name fieldKey = None -> st' = st)
    /\ (forall formKey' (k' : string),
          (formKey', k') <> (formKey, UserStore.field_name fieldKey) ->
          UserStore.form formKey' st' !! k' = UserStore.form formKey' st !! k')
    /\ UserStore.info st' = UserStore.info st.
Proof.
  intros formKey fieldKey value st st'. subst st'.
  unfold UserStore.updateForm, UserStore.has_property.
  destruct (UserStore.form formKey st !! UserStore.field_name fieldKey) as [old|] eqn:Hin.
  - split; [intros _; apply form_set_field_same|].
    split; [intros Hnone; discriminate|].
    split; [intros formKey' k' Hne; apply form_set_field_other; exact Hne|].
    destruct formKey; reflexivity.
  - split; [intros [x Hx]; discriminate|].
    repeat split; reflexivity.
Qed.

(** ** Traces *)

Lemma sink_calls_app (a b : trace) : sink_calls (a ++ b) = sink_calls a ++ sink_calls b.
Proof.
  induction a as [|ev a IH]; simpl; [reflexivity|].
  destruct ev; simpl; rewrite IH; reflexivity.
Qed.

Lemma notifications_app (a b : trace) :
  notifications (a ++ b) = notifications a ++ notifications b.
Proof.
  induction a as [|ev a IH]; simpl; [reflexivity|].
  destruct ev; simpl; rewrite IH; reflexivity.
Qed.

Lemma released_app (r : Resource) (a b : trace) :
  released r (a ++ b) = released r a + released r b.
Proof.
  induction a as [|ev a IH]; simpl; [reflexivity|].
  destruct ev; simpl; rewrite IH; lia.
Qed.

Lemma acquired_app (r : Resource) (a b : trace) :
  acquired r (a ++ b) = acquired r a + acquired r b.
Proof.
  induction a as [|ev a IH]; simpl; [reflexivity|].
  destruct ev; simpl; rewrite IH; lia.
Qed.

(** ** The lookup of the companion entry *)

Lemma strict_eq_string_true (v : option JSValue) (s : string) :
  strict_eq_string v s = true <-> v = Some (JString s).
Proof.
  unfold strict_eq_string. split.
  - destruct v as [[| | |x| |]|]; try discriminate.
    intros H. apply String.eqb_eq in H. subst. reflexivity.
  - intros ->. apply String.eqb_refl.
Qed.

Lemma Array_find_meta_none (its : list JSValue) :
  Forall type_is_not_meta its -> Array_find_meta its = Ok None.
Proof.
  induction 1 as [|item its [t [Ht Hne]] _ IH]; simpl; [reflexivity|].
  rewrite Ht, Hne. exact IH.
Qed.

Lemma Array_find_meta_first (its : list JSValue) (metaFile : JSValue) :
  first_meta its metaFile -> Array_find_meta its = Ok (Some metaFile).
Proof.
  intros (pre & post & -> & Hpre & Hmeta).
  induction Hpre as [|item pre [t [Ht Hne]] _ IH]; simpl.
  - unfold type_is_meta in Hmeta. rewrite Hmeta. simpl. reflexivity.
  - rewrite Ht, Hne. exact IH.
Qed.

Lemma Array_find_meta_Some (its : list JSValue) (metaFile : JSValue) :
  Array_find_meta its = Ok (Some metaFile) -> first_meta its metaFile.
Proof.
  induction its as [|item its IH]; simpl; [discriminate|].
  destruct (get_prop item "type") as [t|e] eqn:Ht; [|discriminate].
  destruct (strict_eq_string t IKRFComponents.meta) eqn:Hm.
  - intros [= <-]. exists [], its. split; [reflexivity|]. split; [constructor|].
    unfold type_is_meta. rewrite Ht. f_equal. apply strict_eq_string_true. exact Hm.
  - intros H. destruct (IH H) as (pre & post & -> & Hpre & Hmeta).
    exists (item :: pre), post. split; [reflexivity|]. split; [|exact Hmeta].
    constructor; [exists t; split; assumption | exact Hpre].
Qed.

Lemma find_entry_None (result : list Entry) (name : option JSValue) :
  find_entry result name = None <->
  Forall (fun entry => name <> Some (JString (filename entry))) result.
Proof.
  unfold find_entry. induction result as [|entry result IH]; simpl.
  - split; [constructor | reflexivity].
  - destruct (strict_eq_string name (filename entry)) eqn:Heq.
    + apply strict_eq_string_true in Heq. split; [discriminate|].
      intros H. inversion H; subst. contradiction.
    + rewrite IH. split.
      * intros H. constructor; [|exact H].
        intros Hn. apply strict_eq_string_true in Hn. congruence.
      * intros H. inversion H; assumption.
Qed.

(** ** One turn of the loop *)

Section Importer.
Variable rt : Runtime.

Lemma route_events result items item name key entry tr :
  get_prop item "name" = Ok name ->
  get_prop item "key" = Ok key ->
  find_entry result name = Some entry ->
  strict_eq_string key IKRFComponents.meta = false ->
  exists evs r,
    route rt result items entry key tr = (tr ++ evs, r)
    /\ sink_calls evs = option_list (routed_call rt result items item)
    /\ notifications evs = []
    /\ forall x, released x evs = 0.
Proof.
  intros Hname Hkey Hentry Hmeta.
  unfold route, routed_call, payload. rewrite Hname, Hkey, Hentry.
  unfold IKRFComponents.data, IKRFComponents.collection, IKRFComponents.causal,
    IKRFComponents.dashboard.
  run.
  destruct (getData entry) as [res|e] eqn:Hres.
  2:{ exists [], (Throw e). rewrite app_nil_r. repeat split.
      destruct key as [[| | |k| |]|]; simpl; try reflexivity.
      repeat (split_on_match; simpl; try reflexivity). }
  destruct key as [[| | |k| |]|]; simpl; try close_block.
  repeat (split_on_match; simpl; try close_block).
Qed.

Lemma loop_body_block result items item name key tr :
  get_prop item "name" = Ok name ->
  get_prop item "key" = Ok key ->
  exists blk,
    loop_body rt result items name key tr = (tr ++ blk, Ok tt)
    /\ item_block rt result items item blk.
Proof.
  intros Hname Hkey. unfold loop_body, item_block.
  destruct (find_entry result name) as [entry|] eqn:Hentry.
  - destruct (strict_eq_string key IKRFComponents.meta) eqn:Hmeta.
    + apply strict_eq_string_true in Hmeta. subst key.
      exists []. rewrite app_nil_r. unfold routed_call. rewrite Hname, Hkey.
      repeat split; simpl; auto.
    + destruct (route_events result items item name key entry (tr ++ [New TextWriter])
                  Hname Hkey Hentry Hmeta) as (evs & r & Hrun & Hcalls & Hnot & Hrel).
      run. rewrite Hrun. destruct r as [[]|e].
      * exists ([New TextWriter] ++ evs). rewrite app_assoc.
        split; [reflexivity|]. simpl. rewrite Hnot.
        repeat split; auto.
        intros Hk. rewrite Hkey in Hk. injection Hk as ->.
        simpl in Hmeta. discriminate.
      * exists ([New TextWriter] ++ evs ++ [Notify (load_notebook_error e)]).
        rewrite !app_assoc. split; [reflexivity|].
        rewrite <- app_assoc. simpl.
        rewrite sink_calls_app, notifications_app, Hnot. simpl.
        rewrite app_nil_r.
        repeat split; auto.
        -- intros x. rewrite released_app, Hrel. reflexivity.
        -- intros Hk. rewrite Hkey in Hk. injection Hk as ->.
           simpl in Hmeta. discriminate.
  - exists []. rewrite app_nil_r. split; [reflexivity|].
    unfold routed_call, payload. rewrite Hname, Hkey, Hentry.
    repeat split; simpl; auto.
    destruct key as [[| | |k| |]|]; try reflexivity.
    repeat (split_on_match; simpl; try reflexivity).
Qed.

Lemma for_await_cons result items item rest tr name key :
  get_prop item "name" = Ok name ->
  get_prop item "key" = Ok key ->
  for_await rt result items (item :: rest) tr
  = match loop_body rt result items name key tr with
    | (tr', Ok _) => for_await rt result items rest tr'
    | (tr', Throw e) => (tr', Throw e)
    end.
Proof.
  intros Hname Hkey. simpl. unfold bind at 1. unfold await at 1. rewrite Hname.
  unfold bind at 1. unfold await at 1. rewrite Hkey. reflexivity.
Qed.

Lemma for_await_null result items rest tr :
  exists e, for_await rt result items (JNull :: rest) tr = (tr, Throw e).
Proof. eexists. reflexivity. Qed.

Lemma get_prop_total item k : item <> JNull -> exists v, get_prop item k = Ok v.
Proof. destruct item; simpl; eauto; congruence. Qed.

Lemma null_or_not (item : JSValue) : item = JNull \/ item <> JNull.
Proof. destruct item; auto; right; discriminate. Qed.

Lemma for_await_blocks result items values tr :
  exists blocks r,
    for_await rt result items values tr = (tr ++ concat blocks, r)
    /\ Forall2 (item_block rt result items) (drawn values) blocks
    /\ (r = Ok tt \/ exists e, r = Throw e /\ drawn values <> values).
Proof.
  revert tr. induction values as [|item rest IH]; intros tr.
  - exists [], (Ok tt). simpl. rewrite app_nil_r.
    split; [reflexivity|]. split; [constructor | left; reflexivity].
  - destruct (null_or_not item) as [->|Hnn].
    { destruct (for_await_null result items rest tr) as [e He].
      exists [], (Throw e). simpl concat. rewrite app_nil_r.
      split; [exact He|]. split; [constructor|].
      right. exists e. split; [reflexivity | discriminate]. }
    destruct (get_prop_total item "name" Hnn) as [name Hname].
    destruct (get_prop_total item "key" Hnn) as [key Hkey].
    destruct (loop_body_block result items item name key tr Hname Hkey)
      as (blk & Hrun & Hblk).
    destruct (IH (tr ++ blk)) as (blocks & r & Hrest & Hall & Hr).
    assert (Hd : drawn (item :: rest) = item :: drawn rest)
      by (destruct item; try reflexivity; congruence).
    exists (blk :: blocks), r.
    rewrite (for_await_cons _ _ _ _ _ _ _ Hname Hkey), Hrun, Hrest, Hd.
    simpl concat. rewrite app_assoc.
    split; [reflexivity|].
    split; [constructor; assumption|].
    destruct Hr as [->|(e & -> & Hne)]; [left; reflexivity|].
    right. exists e. split; [reflexivity | congruence].
Qed.

(** The loop reaches every item that no [null] precedes, with only the
    blocks of the earlier items added to the trace. *)
Lemma for_await_reaches result items pre rest tr :
  Forall (fun item => item <> JNull) pre ->
  exists blocks,
    for_await rt result items (pre ++ rest) tr
    = for_await rt result items rest (tr ++ concat blocks)
    /\ Forall2 (item_block rt result items) pre blocks.
Proof.
  intros Hpre. revert tr.
  induction Hpre as [|item pre Hnn _ IH]; intros tr.
  - exists []. simpl. rewrite app_nil_r. split; [reflexivity | constructor].
  - destruct (get_prop_total item "name" Hnn) as [name Hname].
    destruct (get_prop_total item "key" Hnn) as [key Hkey].
    destruct (loop_body_block result items item name key tr Hname Hkey)
      as (blk & Hrun & Hblk).
    destruct (IH (tr ++ blk)) as (blocks & Hrest & Hall).
    exists (blk :: blocks).
    rewrite <- app_comm_cons, (for_await_cons _ _ _ _ _ _ _ Hname Hkey), Hrun, Hrest.
    simpl concat. rewrite app_assoc.
    split; [reflexivity | constructor; assumption].
Qed.

Lemma item_blocks_calls result items its blocks :
  Forall2 (item_block rt result items) its blocks ->
  sink_calls (concat blocks)
  = flat_map (fun item => option_list (routed_call rt result items item)) its.
Proof.
  induction 1 as [|item blk its blocks (Hcalls & _) _ IH]; simpl; [reflexivity|].
  rewrite sink_calls_app, Hcalls, IH. reflexivity.
Qed.

Lemma item_blocks_released result items its blocks x :
  Forall2 (item_block rt result items) its blocks -> released x (concat blocks) = 0.
Proof.
  induction 1 as [|item blk its blocks (_ & _ & Hrel & _) _ IH]; simpl; [reflexivity|].
  rewrite released_app, Hrel, IH. reflexivity.
Qed.

(** ** The whole call *)

(** The outer [try] either reaches the loop with the manifest read, or
    throws before any store is called. *)
Lemma loadNotebook_try_prelude body :
  match manifest_of rt body with
  | Some (result, items, values) =>
      loadNotebook_try rt body []
      = for_await rt result items values [New ZipReader; New TextWriter]
  | None =>
      exists prelude e,
        loadNotebook_try rt body [] = (prelude, Throw e)
        /\ (prelude = [New ZipReader] \/ prelude = [New ZipReader; New TextWriter])
  end.
Proof.
  unfold manifest_of, loadNotebook_try. run. simpl.
  destruct (ZipReader_getEntries rt (stream_of rt body)) as [result|e]; [|eauto].
  destruct (List.find _ result) as [manifestFile|]; [|eauto].
  simpl.
  destruct (getData manifestFile) as [text|e]; [|eauto].
  destruct (JSON_parse rt text) as [manifest|e]; [|eauto].
  destruct (get_prop manifest "items") as [items|e]; [|eauto].
  destruct (iterate items) as [values|e]; [|eauto].
  reflexivity.
Qed.

Lemma loadNotebook_decomposition body :
  exists prelude blocks final,
    loadNotebook rt body [] = (prelude ++ concat blocks ++ final, Ok tt)
    /\ (prelude = [New ZipReader] \/ prelude = [New ZipReader; New TextWriter])
    /\ (final = [] \/ exists e, final = [Notify (load_notebook_error e)])
    /\ match manifest_of rt body with
       | Some (result, items, values) =>
           Forall2 (item_block rt result items) (drawn values) blocks
       | None => blocks = []
       end.
Proof.
  pose proof (loadNotebook_try_prelude body) as Hpre.
  unfold loadNotebook, try_catch.
  destruct (manifest_of rt body) as [[[result items] values]|].
  - rewrite Hpre.
    destruct (for_await_blocks result items values [New ZipReader; New TextWriter])
      as (blocks & r & Hrun & Hall & Hr).
    rewrite Hrun.
    exists [New ZipReader; New TextWriter], blocks.
    destruct Hr as [->|(e & -> & _)].
    + exists []. rewrite app_nil_r. auto.
    + exists [Notify (load_notebook_error e)].
      unfold notify, emit. rewrite <- app_assoc. eauto 10.
  - destruct Hpre as (prelude & e & Hrun & Hshape). rewrite Hrun.
    exists prelude, [], [Notify (load_notebook_error e)].
    unfold notify, emit. simpl. eauto 10.
Qed.

(** ** Items of kind [data] (lines 355-368) *)

Lemma find_meta_first its metaFile :
  first_meta its metaFile -> find_meta (Some (JArray its)) = Ok (Some metaFile).
Proof. intros H. simpl. apply Array_find_meta_first. exact H. Qed.

Lemma loop_body_data result items name entry tr :
  find_entry result name = Some entry ->
  loop_body rt result items name (Some (JString IKRFComponents.data)) tr
  = try_catch (route rt result items entry (Some (JString IKRFComponents.data)))
              (fun error => notify (load_notebook_error error))
              (tr ++ [New TextWriter]).
Proof. intros Hentry. unfold loop_body. rewrite Hentry. reflexivity. Qed.

(** One item of the manifest within the trace of the whole import: what
    precedes its turn holds the calls of the items before it, what follows
    holds the calls of the items after it. *)
Lemma loadNotebook_around_item body result items pre item post name key :
  manifest_of rt body = Some (result, items, pre ++ item :: post) ->
  Forall (fun it => it <> JNull) pre ->
  get_prop item "name" = Ok name ->
  get_prop item "key" = Ok key ->
  exists before turn after,
    fst (loadNotebook rt body []) = before ++ turn ++ after
    /\ loop_body rt result items name key before = (before ++ turn, Ok tt)
    /\ sink_calls before = routed_calls rt result items pre
    /\ sink_calls after = routed_calls rt result items (drawn post).
Proof.
  intros Hman Hpre Hname Hkey.
  pose proof (loadNotebook_try_prelude body) as Hp. rewrite Hman in Hp.
  destruct (for_await_reaches result items pre (item :: post)
              [New ZipReader; New TextWriter] Hpre) as (blocks & Hreach & Hblocks).
  remember ([New ZipReader; New TextWriter] ++ concat blocks) as before eqn:Hbefore.
  destruct (loop_body_block result items item name key before Hname Hkey)
    as (turn & Hturn & _).
  destruct (for_await_blocks result items post (before ++ turn))
    as (blocks' & r & Hrest & Hall & Hr).
  assert (Hcalls : sink_calls before = routed_calls rt result items pre).
  { subst before. rewrite sink_calls_app. simpl.
    apply item_blocks_calls. exact Hblocks. }
  assert (Hrun : loadNotebook_try rt body [] = ((before ++ turn) ++ concat blocks', r)).
  { rewrite Hp, Hreach, (for_await_cons _ _ _ _ _ _ _ Hname Hkey), Hturn. exact Hrest. }
  unfold loadNotebook, try_catch. rewrite Hrun.
  destruct Hr as [->|(e & -> & _)].
  - exists before, turn, (concat blocks'). cbn [fst].
    split; [symmetry; apply (app_assoc before turn (concat blocks'))|].
    repeat split; auto. apply item_blocks_calls. exact Hall.
  - exists before, turn, (concat blocks' ++ [Notify (load_notebook_error e)]).
    unfold notify, emit. cbn [fst].
    split; [rewrite <- !app_assoc; reflexivity|].
    repeat split; auto.
    rewrite sink_calls_app. simpl. rewrite app_nil_r.
    apply item_blocks_calls. exact Hall.
Qed.

Lemma loop_body_data_loaded result its name entry res metaFile metaFile_name meta rm d m tr :
  find_entry result name = Some entry ->
  getData entry = Ok res ->
  first_meta its metaFile ->
  get_prop metaFile "name" = Ok metaFile_name ->
  find_entry result metaFile_name = Some meta ->
  getData meta = Ok rm ->
  JSON_parse rt res = Ok d ->
  JSON_parse rt rm = Ok m ->
  exists tail,
    loop_body rt result (Some (JArray its)) name (Some (JString IKRFComponents.data)) tr
    = (tr ++ [New TextWriter; New TextWriter;
              Call (dataSourceStore_loadBackupDataStore d m)] ++ tail, Ok tt)
    /\ sink_calls tail = [].
Proof.
  intros Hentry Hres Hfirst Hmname Hmeta Hrm Hd Hm.
  rewrite (loop_body_data _ _ _ _ _ Hentry).
  unfold route. run. rewrite Hres. kinds. simpl (strict_eq_string _ _).
  rewrite (find_meta_first _ _ Hfirst), Hmname, Hmeta, Hrm, Hd, Hm.
  cbv beta iota. rewrite <- !app_assoc. simpl app.
  destruct (sink_throws rt _ _) as [e|].
  - exists [Notify (load_notebook_error e)]. unfold emit.
    rewrite <- app_assoc. split; reflexivity.
  - exists []. split; reflexivity.
Qed.

(** C1.  In an import whose manifest is the array [its], take a [data]
    item that the loop reaches, whose entry is found and extracted, where
    the first item of [its] of [type] [meta] names an entry that is found
    and extracted, and both texts parse as JSON.  The trace of
    [loadNotebook] then holds, at the place of that item, the two text
    writers and one call [loadBackupDataStore(JSON.parse(res),
    JSON.parse(rm))], [rm] being the text of the entry named by that first
    [meta] item: the calls of the import are those of the items before,
    this call, then those of the items after.  [first_meta] depends on the
    manifest alone, so every [data] item is paired with the same one. *)
Theorem data_item_loaded_with_first_meta :
  forall (body : Body rt) result its pre item post name entry res
         metaFile metaFile_name meta rm d m,
    manifest_of rt body = Some (result, Some (JArray its), its) ->
    its = pre ++ item :: post ->
    Forall (fun it => it <> JNull) pre ->
    get_prop item "name" = Ok name ->
    get_prop item "key" = Ok (Some (JString IKRFComponents.data)) ->
    find_entry result name = Some entry ->
    getData entry = Ok res ->
    first_meta its metaFile ->
    get_prop metaFile "name" = Ok metaFile_name ->
    find_entry result metaFile_name = Some meta ->
    getData meta = Ok rm ->
    JSON_parse rt res = Ok d ->
    JSON_parse rt rm = Ok m ->
    exists before after,
      fst (loadNotebook rt body [])
      = before
        ++ [New TextWriter; New TextWriter; Call (dataSourceStore_loadBackupDataStore d m)]
        ++ after
      /\ sink_calls before = routed_calls rt result (Some (JArray its)) pre
      /\ sink_calls after = routed_calls rt result (Some (JArray its)) (drawn post).
Proof.
  intros body result its pre item post name entry res metaFile metaFile_name meta rm d m
    Hman Hits Hpre Hname Hkey Hentry Hres Hfirst Hmname Hmeta Hrm Hd Hm.
  rewrite Hits in Hman at 2.
  destruct (loadNotebook_around_item _ _ _ _ _ _ _ _ Hman Hpre Hname Hkey)
    as (before & turn & after & Htrace & Hturn & Hb & Ha).
  destruct (loop_body_data_loaded result its name entry res metaFile metaFile_name meta
              rm d m before Hentry Hres Hfirst Hmname Hmeta Hrm Hd Hm)
    as (tail & Hloaded & Htail).
  rewrite Hloaded in Hturn. injection Hturn as Hturn. apply app_inv_head in Hturn.
  exists before, (tail ++ after). rewrite Htrace, <- Hturn.
  split; [simpl; reflexivity|]. split; [exact Hb|].
  rewrite sink_calls_app, Htail. exact Ha.
Qed.

(** C4.  A [data] item in a manifest with no item of [type] [meta], or
    whose first such item names an entry the archive does not have: the
    turn of the loop makes no call and sends no notification, and the
    loop goes on with the remaining items.  The turn reaches the lookup
    of the companion only after the item's own payload is extracted
    (line 353), so that extraction is taken to succeed; its only trace
    is the text writer of line 351, made when the item's entry is
    found. *)
Theorem data_item_without_meta_skipped :
  forall result its item rest name tr,
    get_prop item "name" = Ok name ->
    get_prop item "key" = Ok (Some (JString IKRFComponents.data)) ->
    (forall entry, find_entry result name = Some entry -> exists res, getData entry = Ok res) ->
    (Forall type_is_not_meta its
     \/ exists metaFile metaFile_name,
          first_meta its metaFile
          /\ get_prop metaFile "name" = Ok metaFile_name
          /\ Forall (fun e => metaFile_name <> Some (JString (filename e))) result) ->
    let blk := match find_entry result name with
               | Some _ => [New TextWriter]
               | None => []
               end in
    for_await rt result (Some (JArray its)) (item :: rest) tr
    = for_await rt result (Some (JArray its)) rest (tr ++ blk)
    /\ sink_calls blk = [] /\ notifications blk = [].
Proof.
  intros result its item rest name tr Hname Hkey Hextract Hno blk. subst blk.
  rewrite (for_await_cons _ _ _ _ _ _ _ Hname Hkey).
  destruct (find_entry result name) as [entry|] eqn:Hentry.
  2:{ unfold loop_body. rewrite Hentry, app_nil_r. repeat split; reflexivity. }
  destruct (Hextract entry eq_refl) as [res Hres].
  split; [|split; reflexivity].
  rewrite (loop_body_data _ _ _ _ _ Hentry).
  unfold route. run. rewrite Hres. kinds. simpl (strict_eq_string _ _).
  destruct Hno as [Hnone|(metaFile & metaFile_name & Hfirst & Hmname & Habsent)].
  - simpl find_meta. rewrite (Array_find_meta_none _ Hnone). reflexivity.
  - rewrite (find_meta_first _ _ Hfirst), Hmname.
    apply find_entry_None in Habsent. rewrite Habsent. reflexivity.
Qed.

(** ** Skipped items and failing items (lines 346-392) *)

(** C3.  An item whose [key] is [meta], or whose [name] is the filename
    of no entry of the archive, is passed over: the turn of the loop
    leaves the trace as it was (no call, no notification), and the loop
    runs on the remaining items from there. *)
Theorem meta_or_missing_entry_skipped :
  forall result items item rest name key tr,
    get_prop item "name" = Ok name ->
    get_prop item "key" = Ok key ->
    (key = Some (JString IKRFComponents.meta)
     \/ Forall (fun entry => name <> Some (JString (filename entry))) result) ->
    for_await rt result items (item :: rest) tr = for_await rt result items rest tr.
Proof.
  intros result items item rest name key tr Hname Hkey Hskip.
  rewrite (for_await_cons _ _ _ _ _ _ _ Hname Hkey). unfold loop_body.
  destruct Hskip as [->|Habsent].
  - destruct (find_entry result name); reflexivity.
  - apply find_entry_None in Habsent. rewrite Habsent. reflexivity.
Qed.

(** The three kinds of failure of the inner [try], on a [collection]
    item: each makes [route] throw. *)
Lemma route_extraction_failure result items entry key e tr :
  getData entry = Throw e ->
  route rt result items entry key tr = (tr, Throw e).
Proof. intros H. unfold route. run. rewrite H. reflexivity. Qed.

Lemma route_parse_failure result items entry res e tr :
  getData entry = Ok res ->
  JSON_parse rt res = Throw e ->
  route rt result items entry (Some (JString IKRFComponents.collection)) tr
  = (tr, Throw e).
Proof. intros Hres Hp. unfold route. run. rewrite Hres, Hp. reflexivity. Qed.

Lemma route_sink_failure result items entry res p e tr :
  getData entry = Ok res ->
  JSON_parse rt res = Ok p ->
  sink_throws rt tr (collectionStore_loadBackup p) = Some e ->
  route rt result items entry (Some (JString IKRFComponents.collection)) tr
  = (tr ++ [Call (collectionStore_loadBackup p)], Throw e).
Proof.
  intros Hres Hp Hsink. unfold route. run. rewrite Hres, Hp. kinds.
  simpl (strict_eq_string _ _). cbv beta iota. rewrite Hsink. reflexivity.
Qed.

Lemma route_keeps_notifications result items entry key tr tr' r :
  route rt result items entry key tr = (tr', r) ->
  notifications tr' = notifications tr.
Proof.
  unfold route. run. kinds.
  repeat (split_on_match; simpl);
    intros [= <- <-]; rewrite ?notifications_app; simpl; rewrite ?app_nil_r; reflexivity.
Qed.





(** A turn of the loop never throws, whatever the item holds. *)
Lemma loop_body_returns result items name key tr :
  snd (loop_body rt result items name key tr) = Ok tt.
Proof.
  unfold loop_body. destruct (find_entry result name) as [entry|]; [|reflexivity].
  destruct (strict_eq_string key IKRFComponents.meta); [reflexivity|].
  run. destruct (route rt result items entry key (tr ++ [New TextWriter])) as [tr' [[]|e]];
    reflexivity.
Qed.

(** ** Top-level failures (lines 332-345 and 394-400) *)

Lemma find_manifest_None (result : list Entry) :
  Forall (fun entry => filename entry <> "parse_map.json") result ->
  List.find (fun entry => String.eqb (filename entry) "parse_map.json") result = None.
Proof.
  induction 1 as [|entry result Hne _ IH]; simpl; [reflexivity|].
  destruct (String.eqb_spec (filename entry) "parse_map.json"); [contradiction | exact IH].
Qed.

(** C2.  An archive that opens and has no entry called
    ["parse_map.json"]: no store is called, and one error notification
    is sent, that of the outer [catch]. *)
Theorem missing_manifest_aborts_import :
  forall body result,
    ZipReader_getEntries rt (stream_of rt body) = Ok result ->
    Forall (fun entry => filename entry <> "parse_map.json") result ->
    let tr := fst (loadNotebook rt body []) in
    sink_calls tr = []
    /\ notifications tr = [load_notebook_error (Error "Cannot find parse_map.json")].
Proof.
  intros body result Hopen Hnone tr. subst tr.
  unfold loadNotebook, loadNotebook_try. run.
  rewrite Hopen, (find_manifest_None _ Hnone). simpl. split; reflexivity.
Qed.

(** The run up to the loop, once the manifest text is at hand. *)
Lemma loadNotebook_after_manifest_text body result manifestFile text :
  ZipReader_getEntries rt (stream_of rt body) = Ok result ->
  List.find (fun entry => String.eqb (filename entry) "parse_map.json") result
    = Some manifestFile ->
  getData manifestFile = Ok text ->
  loadNotebook rt body []
  = try_catch
      (let* manifest := await (JSON_parse rt text) in
       let* items := await (get_prop manifest "items") in
       let* values := await (iterate items) in
       for_await rt result items values)%js
      (fun error => notify (load_notebook_error error))
      [New ZipReader; New TextWriter].
Proof.
  intros Hopen Hfind Htext. unfold loadNotebook, loadNotebook_try. run.
  rewrite Hopen, Hfind. simpl. rewrite Htext. reflexivity.
Qed.

(** A manifest whose text does not parse: the shape C9 refers to. *)
Lemma unparseable_manifest_aborts_import body result manifestFile text e :
  ZipReader_getEntries rt (stream_of rt body) = Ok result ->
  List.find (fun entry => String.eqb (filename entry) "parse_map.json") result
    = Some manifestFile ->
  getData manifestFile = Ok text ->
  JSON_parse rt text = Throw e ->
  top_level_failure (fst (loadNotebook rt body [])).
Proof.
  intros Hopen Hfind Htext Hparse.
  rewrite (loadNotebook_after_manifest_text _ _ _ _ Hopen Hfind Htext).
  run. rewrite Hparse. split; [reflexivity|]. exists e. reflexivity.
Qed.

(** C9.  A manifest that parses as JSON and whose [items] is not
    iterable (the value is [null], or [items] is absent, [null], a
    boolean, a number or an object): the loop head throws, so no store
    is called and one error notification is sent by the outer [catch],
    as [top_level_failure] words it and as for a manifest that does not
    parse ([unparseable_manifest_aborts_import]). *)
Theorem manifest_without_iterable_items_aborts_import :
  forall body result manifestFile text manifest,
    ZipReader_getEntries rt (stream_of rt body) = Ok result ->
    List.find (fun entry => String.eqb (filename entry) "parse_map.json") result
      = Some manifestFile ->
    getData manifestFile = Ok text ->
    JSON_parse rt text = Ok manifest ->
    has_iterable_items manifest = false ->
    top_level_failure (fst (loadNotebook rt body [])).
Proof.
  intros body result manifestFile text manifest Hopen Hfind Htext Hparse Hitems.
  rewrite (loadNotebook_after_manifest_text _ _ _ _ Hopen Hfind Htext).
  run. rewrite Hparse. unfold has_iterable_items in Hitems.
  destruct (get_prop manifest "items") as [items|e].
  - destruct items as [[| | | | |]|]; try discriminate;
      (split; [reflexivity | eexists; reflexivity]).
  - split; [reflexivity | eexists; reflexivity].
Qed.

(** [undefined] is the filename of no entry. *)
Lemma find_entry_undefined result : find_entry result None = None.
Proof. unfold find_entry. induction result; simpl; auto. Qed.

(** An [items] that is a string is iterable: the loop draws its
    characters, none of which names an entry, and the import ends with
    no call and no notification. *)
Lemma for_await_characters result items (chars : list Ascii.ascii) tr :
  for_await rt result items (map (fun c => JString (String c EmptyString)) chars) tr
  = (tr, Ok tt).
Proof.
  induction chars as [|c chars IH]; simpl; [reflexivity|].
  run. simpl. unfold loop_body. rewrite find_entry_undefined. exact IH.
Qed.

Lemma string_items_import_silent body result manifestFile text manifest s :
  ZipReader_getEntries rt (stream_of rt body) = Ok result ->
  List.find (fun entry => String.eqb (filename entry) "parse_map.json") result
    = Some manifestFile ->
  getData manifestFile = Ok text ->
  JSON_parse rt text = Ok manifest ->
  get_prop manifest "items" = Ok (Some (JString s)) ->
  loadNotebook rt body [] = ([New ZipReader; New TextWriter], Ok tt).
Proof.
  intros Hopen Hfind Htext Hparse Hitems.
  rewrite (loadNotebook_after_manifest_text _ _ _ _ Hopen Hfind Htext).
  run. rewrite Hparse, Hitems. simpl. rewrite for_await_characters. reflexivity.
Qed.

(** ** The caller's view (lines 330-401) *)

(** C7.  Whatever the input and whatever the collaborators do,
    [loadNotebook] returns normally: every error raised inside is caught
    by the outer [catch], whose handler only notifies. *)
Theorem loadNotebook_never_throws :
  forall (body : Body rt) (tr : trace), snd (loadNotebook rt body tr) = Ok tt.
Proof.
  intros body tr. unfold loadNotebook, try_catch.
  destruct (loadNotebook_try rt body tr) as [tr' [[]|e]]; reflexivity.
Qed.

(** C8, as the code has it.  On every exit path the trace of
    [loadNotebook] holds the construction of the zip reader (line 332)
    and no release of anything: the method has no [close()] call, the
    reader and the text writers are locals left to the garbage
    collector. *)
Theorem loadNotebook_closes_nothing :
  forall (body : Body rt),
    let tr := fst (loadNotebook rt body []) in
    1 <= acquired ZipReader tr /\ forall r, released r tr = 0.
Proof.
  intros body tr. subst tr.
  destruct (loadNotebook_decomposition body)
    as (prelude & blocks & final & Hrun & Hpre & Hfin & Hblocks).
  rewrite Hrun. simpl fst. split.
  - rewrite acquired_app. destruct Hpre as [->| ->]; simpl; lia.
  - intros r. rewrite !released_app.
    assert (Hb : released r (concat blocks) = 0).
    { destruct (manifest_of rt body) as [[[result items] values]|].
      - eapply item_blocks_released. exact Hblocks.
      - subst blocks. reflexivity. }
    rewrite Hb.
    destruct Hpre as [->| ->]; destruct Hfin as [->|[e ->]]; reflexivity.
Qed.

(** ** Order of the calls (lines 346-393) *)


End Importer.

(** * The properties on the sample archives *)

(** The first testable property of the specification: one call on the
    data store with both payloads, one on the collection store, and none
    for the [meta] item. *)
Example import_of_sample_archive :
  sink_calls (fst (loadNotebook sample_rt sample_body []))
  = [dataSourceStore_loadBackupDataStore (JArray [JNumber 1; JNumber 2]) (JObject []);
     collectionStore_loadBackup (JArray [])]
  /\ notifications (fst (loadNotebook sample_rt sample_body [])) = [].
Proof. split; reflexivity. Qed.

(** Malformed JSON in one entry: one notification, and the next item is
    still routed. *)
Example import_with_broken_entry :
  let tr := fst (loadNotebook sample_rt
                   (archive (payload_entries ++ [mkEntry "parse_map.json" (Ok "broken")])) []) in
  sink_calls tr = [collectionStore_loadBackup (JArray [])]
  /\ notifications tr = [load_notebook_error (mkError "SyntaxError" "Unexpected token")].
Proof. split; reflexivity. Qed.

(** A [null] in the manifest array is not an item the loop can
    destructure: the items before it are routed, the outer [catch]
    notifies, and the items after it are not reached. *)
Example import_with_null_item :
  let tr := fst (loadNotebook sample_rt
                   (archive (payload_entries ++ [mkEntry "parse_map.json" (Ok "null item")])) []) in
  sink_calls tr = [collectionStore_loadBackup (JArray [])]
  /\ length (notifications tr) = 1.
Proof. split; reflexivity. Qed.

(** An [items] that is a string: nothing is called and nothing is
    notified. *)
Example import_with_string_items :
  loadNotebook sample_rt
    (archive (payload_entries ++ [mkEntry "parse_map.json" (Ok "string items")])) []
  = ([New ZipReader; New TextWriter], Ok tt).
Proof. reflexivity. Qed.

Lemma data_item_loaded_with_first_meta_witness :
  exists before after,
    fst (loadNotebook sample_rt sample_body [])
    = before
      ++ [New TextWriter; New TextWriter;
          Call (dataSourceStore_loadBackupDataStore (JArray [JNumber 1; JNumber 2])
                                                    (JObject []))]
      ++ after
    /\ sink_calls before = routed_calls sample_rt sample_entries (Some (JArray sample_items)) []
    /\ sink_calls after
       = routed_calls sample_rt sample_entries (Some (JArray sample_items))
           (drawn (tl sample_items)).
Proof.
  apply (data_item_loaded_with_first_meta sample_rt sample_body sample_entries sample_items
           [] (parse_map_item "a.json" "data" "data") (tl sample_items)
           (Some (JString "a.json")) (mkEntry "a.json" (Ok "[1,2]")) "[1,2]"
           (parse_map_item "m.json" "meta" "meta") (Some (JString "m.json"))
           (mkEntry "m.json" (Ok "{}")) "{}"
           (JArray [JNumber 1; JNumber 2]) (JObject [])); try reflexivity.
  - constructor.
  - exists [parse_map_item "a.json" "data" "data"],
           [parse_map_item "c.json" "collection" "collection"].
    split; [reflexivity|]. split; [|reflexivity].
    constructor; [|constructor].
    exists (Some (JString "data")). split; reflexivity.
Defined.

Lemma missing_manifest_aborts_import_witness :
  let tr := fst (loadNotebook sample_rt (archive payload_entries) []) in
  sink_calls tr = []
  /\ notifications tr = [load_notebook_error (Error "Cannot find parse_map.json")].
Proof.
  apply (missing_manifest_aborts_import sample_rt (archive payload_entries) payload_entries).
  - reflexivity.
  - repeat constructor; discriminate.
Defined.

(** An item of kind [meta], then an item whose entry is not in the
    archive: both are passed over. *)
Lemma meta_or_missing_entry_skipped_witness :
  for_await sample_rt sample_entries (Some (JArray sample_items))
    (parse_map_item "m.json" "meta" "meta" :: []) [New ZipReader]
  = ([New ZipReader], Ok tt)
  /\ for_await sample_rt sample_entries (Some (JArray sample_items))
       (parse_map_item "gone.json" "causal" "causal" :: []) [New ZipReader]
     = ([New ZipReader], Ok tt).
Proof.
  split.
  - apply (meta_or_missing_entry_skipped sample_rt sample_entries (Some (JArray sample_items))
             (parse_map_item "m.json" "meta" "meta") [] (Some (JString "m.json"))
             (Some (JString "meta")) [New ZipReader]); try reflexivity.
    left. reflexivity.
  - apply (meta_or_missing_entry_skipped sample_rt sample_entries (Some (JArray sample_items))
             (parse_map_item "gone.json" "causal" "causal") [] (Some (JString "gone.json"))
             (Some (JString "causal")) [New ZipReader]); try reflexivity.
    right. repeat constructor; discriminate.
Defined.

Lemma data_item_without_meta_skipped_witness :
  for_await sample_rt payload_entries (Some (JArray lone_data_items)) lone_data_items []
  = for_await sample_rt payload_entries (Some (JArray lone_data_items)) (tl lone_data_items)
      [New TextWriter]
  /\ sink_calls [New TextWriter] = [] /\ notifications [New TextWriter] = [].
Proof.
  apply (data_item_without_meta_skipped sample_rt payload_entries lone_data_items
           (parse_map_item "a.json" "data" "data") (tl lone_data_items)
           (Some (JString "a.json")) []); try reflexivity.
  - intros entry [= <-]. exists "[1,2]". reflexivity.
  - left. repeat constructor.
    + exists (Some (JString "data")). split; reflexivity.
    + exists (Some (JString "collection")). split; reflexivity.
Defined.



Lemma manifest_without_iterable_items_aborts_import_witness :
  top_level_failure
    (fst (loadNotebook sample_rt
            (archive (payload_entries ++ [mkEntry "parse_map.json" (Ok "itemless")])) [])).
Proof.
  apply (manifest_without_iterable_items_aborts_import sample_rt
           (archive (payload_entries ++ [mkEntry "parse_map.json" (Ok "itemless")]))
           (payload_entries ++ [mkEntry "parse_map.json" (Ok "itemless")])
           (mkEntry "parse_map.json" (Ok "itemless")) "itemless" itemless_manifest);
    reflexivity.
Defined.

(** C8, as the claim states it, fails on the sample archive: the import
    constructs a zip reader and closes nothing. *)
Lemma sample_import_leaves_reader_open :
  ~ all_released (fst (loadNotebook sample_rt sample_body [])).
Proof.
  intros Hall. specialize (Hall ZipReader). vm_compute in Hall. lia.
Qed.

(** [updateForm] on the forms of a fresh store: [email] is a field of the
    login form, [checkPassword] is not. *)
Example updateForm_login_email :
  UserStore.login (UserStore.updateForm UserStore.page_login UserStore.email "a@b.c"
                     UserStore.init) !! "email" = Some "a@b.c".
Proof. reflexivity. Qed.

Example updateForm_login_checkPassword :
  UserStore.updateForm UserStore.page_login UserStore.checkPassword "secret" UserStore.init
  = UserStore.init.
Proof. reflexivity. Qed.

(** * Further properties of the form store (lines 66-96) *)

Set Warnings "-clear-no-such-hyp".

Lemma has_property_dom (k : string) (obj : gmap string string) :
  UserStore.has_property k obj = true <-> k ∈ dom obj.
Proof.
  unfold UserStore.has_property. rewrite elem_of_dom.
  destruct (obj !! k) as [v|]; split; intros H;
    first [done | eauto | destruct H; discriminate].
Qed.

Lemma dom_form_set_field formKey k value st formKey' :
  k ∈ dom (UserStore.form formKey st) ->
  dom (UserStore.form formKey' (UserStore.set_field formKey k value st))
  = dom (UserStore.form formKey' st).
Proof.
  intros Hin. apply elem_of_dom in Hin.
  destruct formKey, formKey'; simpl in *; try reflexivity;
    apply dom_insert_lookup_L; exact Hin.
Qed.

(** X1.  [updateForm] never adds a property to a form and never removes one:
    both forms keep their sets of keys, whatever the arguments. *)
Theorem updateForm_keeps_keys :
  forall formKey fieldKey value st formKey',
    dom (UserStore.form formKey' (UserStore.updateForm formKey fieldKey value st))
    = dom (UserStore.form formKey' st).
Proof.
  intros formKey fieldKey value st formKey'. unfold UserStore.updateForm.
  destruct (UserStore.has_property _ _) eqn:Hin; [|reflexivity].
  apply dom_form_set_field. apply has_property_dom. exact Hin.
Qed.

Lemma dom_form_init formKey : dom (UserStore.form formKey UserStore.init) = form_fields formKey.
Proof.
  destruct formKey; simpl; unfold login_fields, signup_fields;
    rewrite !dom_insert_L, dom_empty_L; set_solver.
Qed.

Lemma dom_form_perform c st formKey :
  dom (UserStore.form formKey st) = form_fields formKey ->
  dom (UserStore.form formKey (perform c st)) = form_fields formKey.
Proof.
  intros Hst. destruct c as [| |fk k v]; simpl.
  - apply dom_form_init.
  - destruct formKey; exact Hst.
  - unfold UserStore.updateForm.
    destruct (UserStore.has_property _ _) eqn:Hin; [|exact Hst].
    rewrite dom_form_set_field; [exact Hst|]. apply has_property_dom. exact Hin.
Qed.

Lemma dom_form_foldl calls formKey st :
  dom (UserStore.form formKey st) = form_fields formKey ->
  dom (UserStore.form formKey (foldl (fun st c => perform c st) st calls))
  = form_fields formKey.
Proof.
  revert st. induction calls as [|c calls IH]; intros st Hst; simpl; [exact Hst|].
  apply IH. apply dom_form_perform. exact Hst.
Qed.

(** X2.  Whatever sequence of [init], [destroy] and [updateForm] calls follows
    the constructor, the login form has exactly the three properties of
    [ILoginForm] and the signup form exactly the seven of [ISignUpForm]. *)
Theorem forms_keep_their_fields :
  forall (calls : list FormCall) formKey,
    dom (UserStore.form formKey (after_calls calls)) = form_fields formKey.
Proof.
  intros calls formKey. unfold after_calls.
  apply dom_form_foldl. apply dom_form_init.
Qed.

Lemma updateForm_on_field formKey fieldKey value st :
  UserStore.field_name fieldKey ∈ dom (UserStore.form formKey st) ->
  UserStore.updateForm formKey fieldKey value st
  = UserStore.set_field formKey (UserStore.field_name fieldKey) value st.
Proof.
  intros Hin. apply has_property_dom in Hin.
  unfold UserStore.updateForm. rewrite Hin. reflexivity.
Qed.

Lemma updateForm_off_field formKey fieldKey value st :
  UserStore.field_name fieldKey ∉ dom (UserStore.form formKey st) ->
  UserStore.updateForm formKey fieldKey value st = st.
Proof.
  intros Hout. unfold UserStore.updateForm.
  destruct (UserStore.has_property _ _) eqn:Hin; [|reflexivity].
  apply has_property_dom in Hin. contradiction.
Qed.

(** X3.  On the signup form every edit lands: after any calls on the store,
    [updateForm('signup', fieldKey, value)] leaves [value] in the field,
    for each of the seven field keys. *)
Theorem signup_edit_always_written :
  forall (calls : list FormCall) fieldKey value,
    UserStore.signup
      (UserStore.updateForm UserStore.page_signup fieldKey value (after_calls calls))
      !! UserStore.field_name fieldKey
    = Some value.
Proof.
  intros calls fieldKey value.
  rewrite updateForm_on_field.
  - apply (form_set_field_same UserStore.page_signup).
  - unfold after_calls. rewrite (dom_form_foldl _ _ _ (dom_form_init _)).
    simpl. unfold signup_fields. destruct fieldKey; simpl; set_solver.
Qed.

(** X4.  On the login form the edits of [userName], [password] and [email]
    land, and those of the four fields that only the signup form has are
    dropped without any change to the store. *)
Theorem login_edit_by_field :
  forall (calls : list FormCall) value,
    let st := after_calls calls in
    let edit := fun fieldKey => UserStore.updateForm UserStore.page_login fieldKey value st in
    (UserStore.login (edit UserStore.userName) !! "userName" = Some value
     /\ UserStore.login (edit UserStore.password) !! "password" = Some value
     /\ UserStore.login (edit UserStore.email) !! "email" = Some value)
    /\ (edit UserStore.checkPassword = st
        /\ edit UserStore.phone = st
        /\ edit UserStore.certCode = st
        /\ edit UserStore.invCode = st).
Proof.
  intros calls value st edit. subst edit.
  pose proof (dom_form_foldl calls UserStore.page_login _ (dom_form_init _)) as Hdom.
  fold (after_calls calls) in Hdom. fold st in Hdom.
  simpl in Hdom. unfold login_fields in Hdom.
  split.
  - repeat split;
      (rewrite updateForm_on_field;
       [ apply (form_set_field_same UserStore.page_login)
       | simpl; rewrite Hdom; set_solver ]).
  - repeat split;
      (apply updateForm_off_field; simpl; rewrite Hdom; set_solver).
Qed.

Lemma set_field_set_field formKey k v1 v2 st :
  UserStore.set_field formKey k v2 (UserStore.set_field formKey k v1 st)
  = UserStore.set_field formKey k v2 st.
Proof. destruct formKey; simpl; rewrite insert_insert_eq; reflexivity. Qed.

(** X5.  The last write wins: two edits of the same field of the same form
    leave the store as the second alone does. *)
Theorem updateForm_last_write_wins :
  forall formKey fieldKey v1 v2 st,
    UserStore.updateForm formKey fieldKey v2 (UserStore.updateForm formKey fieldKey v1 st)
    = UserStore.updateForm formKey fieldKey v2 st.
Proof.
  intros formKey fieldKey v1 v2 st.
  destruct (UserStore.has_property (UserStore.field_name fieldKey)
              (UserStore.form formKey st)) eqn:Hin.
  - apply has_property_dom in Hin.
    rewrite (updateForm_on_field _ _ v1 st Hin), (updateForm_on_field _ _ v2 st Hin).
    rewrite updateForm_on_field; [apply set_field_set_field|].
    rewrite dom_form_set_field; assumption.
  - unfold UserStore.updateForm at 2. rewrite Hin. reflexivity.
Qed.

Lemma field_name_inj k1 k2 : UserStore.field_name k1 = UserStore.field_name k2 -> k1 = k2.
Proof. destruct k1, k2; simpl; intros H; try reflexivity; discriminate. Qed.

Lemma set_field_commutes fk1 k1 v1 fk2 k2 v2 st :
  (fk1, k1) <> (fk2, k2) ->
  UserStore.set_field fk1 k1 v1 (UserStore.set_field fk2 k2 v2 st)
  = UserStore.set_field fk2 k2 v2 (UserStore.set_field fk1 k1 v1 st).
Proof.
  intros Hne. destruct fk1, fk2; simpl; try reflexivity;
    (rewrite insert_insert_ne; [reflexivity|]); intros ->; apply Hne; reflexivity.
Qed.

(** X6.  Edits of different fields (or of different forms) do not interfere:
    they give the same store in either order. *)
Theorem updateForm_commutes :
  forall fk1 k1 v1 fk2 k2 v2 st,
    (fk1, k1) <> (fk2, k2) ->
    UserStore.updateForm fk1 k1 v1 (UserStore.updateForm fk2 k2 v2 st)
    = UserStore.updateForm fk2 k2 v2 (UserStore.updateForm fk1 k1 v1 st).
Proof.
  intros fk1 k1 v1 fk2 k2 v2 st Hne.
  assert (Hnames : (fk1, UserStore.field_name k1) <> (fk2, UserStore.field_name k2)).
  { intros [= -> Hk]. apply field_name_inj in Hk. subst. apply Hne. reflexivity. }
  destruct (UserStore.has_property (UserStore.field_name k1) (UserStore.form fk1 st)) eqn:H1;
    destruct (UserStore.has_property (UserStore.field_name k2) (UserStore.form fk2 st)) eqn:H2.
  - apply has_property_dom in H1, H2.
    rewrite (updateForm_on_field fk2 k2 v2 st H2), (updateForm_on_field fk1 k1 v1 st H1).
    rewrite !updateForm_on_field by (rewrite dom_form_set_field; assumption).
    apply set_field_commutes. exact Hnames.
  - apply has_property_dom in H1.
    assert (H2' : UserStore.field_name k2 ∉ dom (UserStore.form fk2 st))
      by (intros Hin; apply has_property_dom in Hin; congruence).
    rewrite (updateForm_off_field fk2 k2 v2 st H2').
    rewrite (updateForm_off_field fk2 k2 v2); [reflexivity|].
    rewrite (updateForm_on_field fk1 k1 v1 st H1), dom_form_set_field; assumption.
  - apply has_property_dom in H2.
    assert (H1' : UserStore.field_name k1 ∉ dom (UserStore.form fk1 st))
      by (intros Hin; apply has_property_dom in Hin; congruence).
    rewrite (updateForm_off_field fk1 k1 v1 st H1').
    rewrite (updateForm_off_field fk1 k1 v1); [reflexivity|].
    rewrite (updateForm_on_field fk2 k2 v2 st H2), dom_form_set_field; assumption.
  - assert (H1' : UserStore.field_name k1 ∉ dom (UserStore.form fk1 st))
      by (intros Hin; apply has_property_dom in Hin; congruence).
    assert (H2' : UserStore.field_name k2 ∉ dom (UserStore.form fk2 st))
      by (intros Hin; apply has_property_dom in Hin; congruence).
    rewrite (updateForm_off_field fk2 k2 v2 st H2'), (updateForm_off_field fk1 k1 v1 st H1').
    rewrite (updateForm_off_field fk2 k2 v2 st H2'). reflexivity.
Qed.

Lemma updateForm_commutes_witness :
  UserStore.updateForm UserStore.page_login UserStore.email "a@b.c"
    (UserStore.updateForm UserStore.page_signup UserStore.phone "555" UserStore.init)
  = UserStore.updateForm UserStore.page_signup UserStore.phone "555"
      (UserStore.updateForm UserStore.page_login UserStore.email "a@b.c" UserStore.init).
Proof.
  apply (updateForm_commutes UserStore.page_login UserStore.email "a@b.c"
           UserStore.page_signup UserStore.phone "555" UserStore.init).
  discriminate.
Defined.

(** * Further properties of the importer (lines 330-401) *)

Section ImporterRouting.
Variable rt : Runtime.

(** X7.  An item of kind [collection], [causal] or [dashboard] whose entry is
    found, extracted and parsed: the turn of the loop makes one call, on
    the store of that kind, with the parsed payload; it notifies only if
    that store throws, and the loop goes on. *)
Theorem single_payload_item_routed :
  forall result items item rest name key entry res p c tr,
    get_prop item "name" = Ok name ->
    get_prop item "key" = Ok (Some (JString key)) ->
    find_entry result name = Some entry ->
    getData entry = Ok res ->
    JSON_parse rt res = Ok p ->
    single_payload_call key p = Some c ->
    let tr1 := tr ++ [New TextWriter] in
    for_await rt result items (item :: rest) tr
    = for_await rt result items rest
        (tr1 ++ [Call c] ++ match sink_throws rt tr1 c with
                            | None => []
                            | Some e => [Notify (load_notebook_error e)]
                            end).
Proof.
  intros result items item rest name key entry res p c tr
    Hname Hkey Hentry Hres Hp Hc tr1.
  rewrite (for_await_cons _ _ _ _ _ _ _ _ Hname Hkey).
  unfold loop_body, route, single_payload_call in *. rewrite Hentry.
  kinds. simpl (strict_eq_string _ _).
  destruct (String.eqb_spec key "collection") as [->|Hn1].
  { injection Hc as <-. simpl. run. rewrite Hres, Hp. fold tr1.
    destruct (sink_throws rt tr1 _); simpl; rewrite <- ?app_assoc; reflexivity. }
  destruct (String.eqb_spec key "causal") as [->|Hn2].
  { injection Hc as <-. simpl. run. rewrite Hres, Hp. fold tr1.
    destruct (sink_throws rt tr1 _); simpl; rewrite <- ?app_assoc; reflexivity. }
  destruct (String.eqb_spec key "dashboard") as [->|Hn3]; [|discriminate].
  injection Hc as <-. simpl. run. rewrite Hres, Hp. fold tr1.
  destruct (sink_throws rt tr1 _); simpl; rewrite <- ?app_assoc; reflexivity.
Qed.

(** X8.  An item whose [key] is none of the five kinds (another string, a
    value that is no string, or no [key] at all) and whose entry is found
    and extracted: nothing is called and nothing is notified, whether or
    not the payload is JSON, which is never parsed. *)
Theorem unknown_kind_item_ignored :
  forall result items item rest name key entry res tr,
    get_prop item "name" = Ok name ->
    get_prop item "key" = Ok key ->
    known_kind key = false ->
    find_entry result name = Some entry ->
    getData entry = Ok res ->
    for_await rt result items (item :: rest) tr
    = for_await rt result items rest (tr ++ [New TextWriter]).
Proof.
  intros result items item rest name key entry res tr Hname Hkey Hkind Hentry Hres.
  rewrite (for_await_cons _ _ _ _ _ _ _ _ Hname Hkey).
  unfold known_kind in Hkind.
  repeat (apply orb_false_iff in Hkind; destruct Hkind as [Hkind ?]).
  unfold loop_body, route. rewrite Hentry. run.
  repeat match goal with H : strict_eq_string key _ = false |- _ => rewrite H; clear H end.
  rewrite Hres. reflexivity.
Qed.

(** X9.  Every way of not getting at the manifest (the archive does not open,
    it has no ["parse_map.json"], that entry cannot be extracted, its text
    is no JSON, its [items] cannot be iterated) ends the same way: no
    store is called and the outer [catch] sends one notification. *)
Theorem unreadable_manifest_is_top_level_failure :
  forall (body : Body rt),
    manifest_of rt body = None ->
    top_level_failure (fst (loadNotebook rt body [])).
Proof.
  intros body Hnone.
  pose proof (loadNotebook_try_prelude rt body) as Hpre. rewrite Hnone in Hpre.
  destruct Hpre as (prelude & e & Hrun & Hshape).
  unfold loadNotebook, try_catch. rewrite Hrun. unfold notify, emit.
  unfold top_level_failure.
  destruct Hshape as [->| ->]; simpl; eauto.
Qed.

Lemma drawn_length values : length (drawn values) <= length values.
Proof.
  induction values as [|item values IH]; simpl; [lia|].
  destruct item; simpl; lia.
Qed.

Lemma drawn_short values : drawn values <> values -> length (drawn values) < length values.
Proof.
  induction values as [|item values IH]; simpl; [congruence|].
  intros Hne. destruct item; simpl; try lia;
    (assert (drawn values <> values) by congruence; specialize (IH ltac:(assumption)); lia).
Qed.

Lemma item_blocks_bounds result items its blocks :
  Forall2 (item_block rt result items) its blocks ->
  length (sink_calls (concat blocks)) <= length its
  /\ length (notifications (concat blocks)) <= length its.
Proof.
  induction 1 as [|item blk its blocks (Hcalls & Hnot & _) _ [IHc IHn]]; simpl; [lia|].
  rewrite sink_calls_app, notifications_app, !length_app, Hcalls.
  destruct (routed_call rt result items item); simpl; lia.
Qed.

(** X10.  An import whose manifest is read calls the stores at most once per
    manifest item and sends at most one notification per manifest item,
    the one of the outer [catch] included. *)
Theorem import_effects_bounded_by_manifest :
  forall (body : Body rt) result items values,
    manifest_of rt body = Some (result, items, values) ->
    let tr := fst (loadNotebook rt body []) in
    length (sink_calls tr) <= length values
    /\ length (notifications tr) <= length values.
Proof.
  intros body result items values Hman tr. subst tr.
  pose proof (loadNotebook_try_prelude rt body) as Hpre. rewrite Hman in Hpre.
  unfold loadNotebook, try_catch. rewrite Hpre.
  destruct (for_await_blocks rt result items values [New ZipReader; New TextWriter])
    as (blocks & r & Hrun & Hall & Hr).
  rewrite Hrun.
  destruct (item_blocks_bounds _ _ _ _ Hall) as [Hc Hn].
  pose proof (drawn_length values) as Hlen.
  destruct Hr as [->|(e & -> & Hne)]; unfold notify, emit; cbn [fst].
  - rewrite sink_calls_app, notifications_app. simpl. lia.
  - apply drawn_short in Hne.
    rewrite !sink_calls_app, !notifications_app, !length_app. simpl. lia.
Qed.

Lemma sink_calls_are_expected (body : Body rt) :
  sink_calls (fst (loadNotebook rt body [])) = expected_calls rt body.
Proof.
  destruct (loadNotebook_decomposition rt body)
    as (prelude & blocks & final & Hrun & Hpre & Hfin & Hblocks).
  rewrite Hrun. simpl fst. rewrite !sink_calls_app.
  assert (Hp : sink_calls prelude = []) by (destruct Hpre as [->| ->]; reflexivity).
  assert (Hf : sink_calls final = []) by (destruct Hfin as [->|[e ->]]; reflexivity).
  rewrite Hp, Hf, app_nil_r. simpl. unfold expected_calls.
  destruct (manifest_of rt body) as [[[result items] values]|].
  - eapply item_blocks_calls. exact Hblocks.
  - subst blocks. reflexivity.
Qed.

End ImporterRouting.

Lemma expected_calls_with_sinks (rt : Runtime) throws (body : Body rt) :
  expected_calls (with_sinks rt throws) (same_body throws body) = expected_calls rt body.
Proof. destruct body; reflexivity. Qed.

(** X11.  Which calls an import makes, and in which order, does not depend on
    how the stores answer: with stores that throw, or throw at other
    calls, the same calls are made with the same payloads. *)
Theorem sink_calls_independent_of_store_failures :
  forall (rt : Runtime) (throws : trace -> SinkCall -> option JSError) (body : Body rt),
    sink_calls (fst (loadNotebook (with_sinks rt throws) (same_body throws body) []))
    = sink_calls (fst (loadNotebook rt body [])).
Proof.
  intros rt throws body.
  rewrite !sink_calls_are_expected. apply expected_calls_with_sinks.
Qed.

(** * [openNotebook] (lines 311-328) *)

Section OpenNotebookProperties.
Variable rt : Runtime.
Variable fetch : string -> result (Response rt).

Lemma loadNotebook_run (body : Body rt) (tr : trace) :
  exists tr', loadNotebook rt body tr = (tr', Ok tt).
Proof.
  unfold loadNotebook, try_catch.
  destruct (loadNotebook_try rt body tr) as [tr' [[]|e]]; eexists; reflexivity.
Qed.

(** X12.  Once the response is [ok] and has a body, [openNotebook] is
    [loadNotebook] on that body: its own [catch] adds nothing, so whatever
    goes wrong with the archive is notified as a "Load Notebook Error" and
    never as a download error. *)
Theorem openNotebook_runs_loadNotebook :
  forall downLoadURL data body tr,
    fetch downLoadURL = Ok data ->
    response_ok data = true ->
    response_body data = Some body ->
    openNotebook rt fetch downLoadURL tr = loadNotebook rt (OfStream body) tr.
Proof.
  intros downLoadURL data body tr Hfetch Hok Hbody.
  destruct (loadNotebook_run (OfStream body) tr) as [tr' Hrun].
  unfold openNotebook, try_catch, bind, await. rewrite Hfetch, Hok, Hbody. simpl.
  rewrite Hrun. reflexivity.
Qed.

(** X13.  A download that fails (the request is rejected, the status is not
    [ok], or the response has no body) imports nothing: no zip reader is
    constructed, no store is called, one "[download notebook]"
    notification carries the error, and [openNotebook] returns. *)
Theorem openNotebook_download_failure :
  forall downLoadURL e tr,
    download_failure rt (fetch downLoadURL) = Some e ->
    openNotebook rt fetch downLoadURL tr
    = (tr ++ [Notify (download_notebook_error e)], Ok tt).
Proof.
  intros downLoadURL e tr Hfail. unfold openNotebook, download_failure in *. run.
  destruct (fetch downLoadURL) as [data|e0].
  - destruct (response_ok data); simpl in *.
    + destruct (response_body data); [discriminate|].
      injection Hfail as <-. reflexivity.
    + injection Hfail as <-. reflexivity.
  - injection Hfail as <-. reflexivity.
Qed.

End OpenNotebookProperties.

(** * Workspaces and notebooks (lines 228-277) *)

Lemma find_update_first_same {A} (p : A -> bool) (f : A -> A) (l : list A) (x : A) :
  List.find p l = Some x ->
  p (f x) = true ->
  List.find p (update_first p f l) = Some (f x).
Proof.
  intros Hfind Hp. induction l as [|y l IH]; simpl in *; [discriminate|].
  destruct (p y) eqn:Hy.
  - injection Hfind as ->. simpl. rewrite Hp. reflexivity.
  - simpl. rewrite Hy. apply IH. exact Hfind.
Qed.

Lemma find_update_first_other {A} (p q : A -> bool) (f : A -> A) (l : list A) :
  (forall x, p x = true -> q x = false) ->
  (forall x, q (f x) = q x) ->
  List.find q (update_first p f l) = List.find q l.
Proof.
  intros Hpq Hqf. induction l as [|y l IH]; simpl; [reflexivity|].
  destruct (p y) eqn:Hy; simpl.
  - rewrite Hqf, (Hpq y Hy). reflexivity.
  - rewrite IH. reflexivity.
Qed.

Lemma find_organization_map f st organizationId :
  find_organization (map_organizations f st) organizationId
  = match UserStore.info st with
    | None => None
    | Some i =>
        match UserStore.organizations i with
        | None => None
        | Some orgs => List.find (has_id organizationId) (f orgs)
        end
    end.
Proof.
  unfold find_organization, map_organizations.
  destruct (UserStore.info st) as [i|] eqn:Hi; [|rewrite Hi; reflexivity].
  destruct (UserStore.organizations i) as [orgs|] eqn:Ho; simpl; [reflexivity|].
  rewrite Hi, Ho. reflexivity.
Qed.

Lemma find_organization_updated f st organizationId which :
  find_organization st organizationId = Some which ->
  has_id organizationId (f which) = true ->
  find_organization
    (map_organizations (update_first (has_id organizationId) f) st) organizationId
  = Some (f which).
Proof.
  intros Hfind Hid. rewrite find_organization_map. unfold find_organization in Hfind.
  destruct (UserStore.info st) as [i|]; [|discriminate].
  destruct (UserStore.organizations i) as [orgs|]; [|discriminate].
  apply find_update_first_same; assumption.
Qed.

Lemma find_organization_untouched f st organizationId other :
  other <> organizationId ->
  (forall org, has_id other (f org) = has_id other org) ->
  find_organization
    (map_organizations (update_first (has_id organizationId) f) st) other
  = find_organization st other.
Proof.
  intros Hne Hf. rewrite find_organization_map. unfold find_organization.
  destruct (UserStore.info st) as [i|]; [|reflexivity].
  destruct (UserStore.organizations i) as [orgs|]; [|reflexivity].
  apply find_update_first_other; [|exact Hf].
  intros org Hp. unfold has_id in *. lia.
Qed.

Section WorkspacesProperties.
Variable api : Api.

(** X14.  Workspaces are requested once: after a call of [getWorkspaces] that
    returned the list, a further call for the same organization sends no
    request, notifies nothing, changes nothing and returns [null]. *)
Theorem getWorkspaces_loads_once :
  forall organizationId st st' evs workspaceList,
    getWorkspaces api organizationId st = (st', evs, Some workspaceList) ->
    getWorkspaces api organizationId st' = (st', [], None).
Proof.
  intros organizationId st st' evs workspaceList Hrun.
  unfold getWorkspaces in Hrun.
  destruct (find_organization st organizationId) as [which|] eqn:Hwhich; [|discriminate].
  destruct (UserStore.workspaces which) eqn:Hws; [discriminate|].
  destruct (request_workspaceList api _ organizationId) as [ws|e]; [|discriminate].
  injection Hrun as <- <- <-.
  unfold getWorkspaces.
  rewrite (find_organization_updated (with_workspaces ws) st organizationId which Hwhich).
  - reflexivity.
  - unfold find_organization in Hwhich.
    destruct (UserStore.info st) as [i|]; [|discriminate].
    destruct (UserStore.organizations i) as [orgs|]; [|discriminate].
    apply find_some in Hwhich. apply Hwhich.
Qed.

(** X15.  A successful [getWorkspaces] writes the list into the organization it
    was asked for and nowhere else: every other organization is found as
    before, and both forms are as before. *)
Theorem getWorkspaces_writes_one_organization :
  forall organizationId st st' evs workspaceList,
    getWorkspaces api organizationId st = (st', evs, Some workspaceList) ->
    (exists which,
        find_organization st organizationId = Some which
        /\ find_organization st' organizationId = Some (with_workspaces workspaceList which))
    /\ (forall other, other <> organizationId ->
          find_organization st' other = find_organization st other)
    /\ UserStore.login st' = UserStore.login st
    /\ UserStore.signup st' = UserStore.signup st.
Proof.
  intros organizationId st st' evs workspaceList Hrun.
  unfold getWorkspaces in Hrun.
  destruct (find_organization st organizationId) as [which|] eqn:Hwhich; [|discriminate].
  destruct (UserStore.workspaces which) eqn:Hws; [discriminate|].
  destruct (request_workspaceList api _ organizationId) as [ws|e]; [|discriminate].
  injection Hrun as <- <- <-.
  assert (Hid : has_id organizationId which = true).
  { unfold find_organization in Hwhich.
    destruct (UserStore.info st) as [i|]; [|discriminate].
    destruct (UserStore.organizations i) as [orgs|]; [|discriminate].
    apply find_some in Hwhich. apply Hwhich. }
  split; [|split; [|split]].
  - exists which. split; [reflexivity|].
    apply find_organization_updated; assumption.
  - intros other Hne. apply find_organization_untouched; [exact Hne | reflexivity].
  - unfold map_organizations. destruct (UserStore.info st) as [i|]; [|reflexivity].
    destruct (UserStore.organizations i); reflexivity.
  - unfold map_organizations. destruct (UserStore.info st) as [i|]; [|reflexivity].
    destruct (UserStore.organizations i); reflexivity.
Qed.

Lemma find_organization_has_id st organizationId which :
  find_organization st organizationId = Some which ->
  has_id organizationId which = true.
Proof.
  unfold find_organization. intros Hwhich.
  destruct (UserStore.info st) as [i|]; [|discriminate].
  destruct (UserStore.organizations i) as [orgs|]; [|discriminate].
  apply find_some in Hwhich. apply Hwhich.
Qed.

Lemma find_workspace_after_assign st organizationId workspaceId notebookList which :
  find_workspace st organizationId workspaceId = Some which ->
  find_workspace
    (map_organizations
       (update_first (has_id organizationId) (assign_notebooks workspaceId notebookList)) st)
    organizationId workspaceId
  = Some (with_notebooks notebookList which).
Proof.
  unfold find_workspace. intros Hwhich.
  destruct (find_organization st organizationId) as [org|] eqn:Horg; [|discriminate].
  destruct (UserStore.workspaces org) as [ws|] eqn:Hws; [|discriminate].
  pose proof (find_organization_has_id _ _ _ Horg) as Hid.
  rewrite (find_organization_updated (assign_notebooks workspaceId notebookList)
             st organizationId org Horg).
  - unfold assign_notebooks. rewrite Hws. simpl.
    apply find_update_first_same; [exact Hwhich|].
    apply find_some in Hwhich. apply Hwhich.
  - unfold assign_notebooks. rewrite Hws. exact Hid.
Qed.

(** X16.  Notebooks are cached unless forced: after a call of [getNotebooks]
    that returned the list, a call without [forceUpdate] sends no request
    and changes nothing, and a call with [forceUpdate] sends the request
    again. *)
Theorem getNotebooks_cached_unless_forced :
  forall organizationId workspaceId forceUpdate st st' evs notebookList,
    getNotebooks api organizationId workspaceId forceUpdate st
      = (st', evs, Some notebookList) ->
    getNotebooks api organizationId workspaceId false st' = (st', [], None)
    /\ exists st'' rest r,
         getNotebooks api organizationId workspaceId true st'
         = (st'', Requested (getMainServiceAddress api "/api/ce/notebook/list")
                            organizationId :: rest, r).
Proof.
  intros organizationId workspaceId forceUpdate st st' evs notebookList Hrun.
  unfold getNotebooks in Hrun.
  destruct (find_workspace st organizationId workspaceId) as [which|] eqn:Hwhich;
    [|discriminate].
  destruct (negb forceUpdate && bool_decide (is_Some (UserStore.notebooks which)));
    [discriminate|].
  destruct (request_notebookList api _ organizationId) as [nbs|e] eqn:Hreq; [|discriminate].
  injection Hrun as <- <- <-.
  pose proof (find_workspace_after_assign st organizationId workspaceId nbs which Hwhich)
    as Hafter.
  split.
  - unfold getNotebooks. rewrite Hafter. reflexivity.
  - unfold getNotebooks. rewrite Hafter. simpl. rewrite Hreq. eauto.
Qed.

(** X17.  Before the workspaces of an organization are loaded there is no
    workspace to attach notebooks to: [getNotebooks] sends no request and
    returns [null], with or without [forceUpdate]. *)
Theorem getNotebooks_needs_loaded_workspaces :
  forall organizationId workspaceId forceUpdate st org,
    find_organization st organizationId = Some org ->
    UserStore.workspaces org = None ->
    getNotebooks api organizationId workspaceId forceUpdate st = (st, [], None).
Proof.
  intros organizationId workspaceId forceUpdate st org Horg Hws.
  unfold getNotebooks, find_workspace. rewrite Horg, Hws. reflexivity.
Qed.

(** X18.  Once [getWorkspaces] has returned the list, the notebooks of a
    workspace of that list that has none yet are requested by
    [getNotebooks]. *)
Theorem getNotebooks_after_getWorkspaces :
  forall organizationId workspaceId st st' evs workspaceList wsp,
    getWorkspaces api organizationId st = (st', evs, Some workspaceList) ->
    List.find (has_workspace_id workspaceId) workspaceList = Some wsp ->
    UserStore.notebooks wsp = None ->
    exists st'' rest r,
      getNotebooks api organizationId workspaceId false st'
      = (st'', Requested (getMainServiceAddress api "/api/ce/notebook/list")
                         organizationId :: rest, r).
Proof.
  intros organizationId workspaceId st st' evs workspaceList wsp Hrun Hfind Hnone.
  unfold getWorkspaces in Hrun.
  destruct (find_organization st organizationId) as [which|] eqn:Hwhich; [|discriminate].
  destruct (UserStore.workspaces which) eqn:Hws; [discriminate|].
  destruct (request_workspaceList api _ organizationId) as [ws|e]; [|discriminate].
  injection Hrun as <- <- <-.
  unfold getNotebooks, find_workspace.
  rewrite (find_organization_updated (with_workspaces ws) st organizationId which Hwhich
             (find_organization_has_id _ _ _ Hwhich)).
  simpl. rewrite Hfind, Hnone. simpl.
  destruct (request_notebookList api _ organizationId); eauto.
Qed.

(** X19.  A [null] result means nothing was stored: whenever [getWorkspaces] or
    [getNotebooks] returns [null] (nothing to load, or the request
    failed) the store is as it was. *)
Theorem null_result_leaves_store :
  forall organizationId workspaceId forceUpdate st,
    (forall st' evs, getWorkspaces api organizationId st = (st', evs, None) -> st' = st)
    /\ (forall st' evs,
          getNotebooks api organizationId workspaceId forceUpdate st = (st', evs, None) ->
          st' = st).
Proof.
  intros organizationId workspaceId forceUpdate st. split; intros st' evs.
  - unfold getWorkspaces.
    repeat (split_on_match; simpl); intros [= <- _]; try reflexivity; discriminate.
  - unfold getNotebooks.
    repeat (split_on_match; simpl); intros [= <- _]; try reflexivity; discriminate.
Qed.

End WorkspacesProperties.

(** * The further properties on the samples *)

Lemma single_payload_item_routed_witness :
  for_await sample_rt sample_entries (Some (JArray sample_items))
    [parse_map_item "c.json" "collection" "collection"] []
  = ([New TextWriter; Call (collectionStore_loadBackup (JArray []))], Ok tt).
Proof.
  apply (single_payload_item_routed sample_rt sample_entries (Some (JArray sample_items))
           (parse_map_item "c.json" "collection" "collection") []
           (Some (JString "c.json")) "collection" (mkEntry "c.json" (Ok "[]")) "[]"
           (JArray []) (collectionStore_loadBackup (JArray [])) []); reflexivity.
Defined.

(** An item of a kind the importer does not know, on an entry that is no
    JSON. *)
Lemma unknown_kind_item_ignored_witness :
  for_await sample_rt sample_entries (Some (JArray sample_items))
    [parse_map_item "bad.json" "mega" "mega"] []
  = ([New TextWriter], Ok tt).
Proof.
  apply (unknown_kind_item_ignored sample_rt sample_entries (Some (JArray sample_items))
           (parse_map_item "bad.json" "mega" "mega") []
           (Some (JString "bad.json")) (Some (JString "mega"))
           (mkEntry "bad.json" (Ok "{oops")) "{oops" []); reflexivity.
Defined.

(** A stream that is no zip archive. *)
Lemma unreadable_manifest_is_top_level_failure_witness :
  top_level_failure
    (fst (loadNotebook sample_rt
            (OfStream (rt := sample_rt) (Throw (Error "End of central directory not found")))
            [])).
Proof.
  apply (unreadable_manifest_is_top_level_failure sample_rt
           (OfStream (rt := sample_rt) (Throw (Error "End of central directory not found")))).
  reflexivity.
Defined.

Lemma import_effects_bounded_by_manifest_witness :
  let tr := fst (loadNotebook sample_rt sample_body []) in
  length (sink_calls tr) <= 3 /\ length (notifications tr) <= 3.
Proof.
  apply (import_effects_bounded_by_manifest sample_rt sample_body sample_entries
           (Some (JArray sample_items)) sample_items).
  reflexivity.
Defined.

Lemma openNotebook_runs_loadNotebook_witness :
  openNotebook sample_rt sample_fetch "https://rath.example/notebook.krf" []
  = loadNotebook sample_rt sample_body [].
Proof.
  apply (openNotebook_runs_loadNotebook sample_rt sample_fetch
           "https://rath.example/notebook.krf"
           (mkResponse (rt := sample_rt) true "OK" (Some (Ok sample_entries)))
           (Ok sample_entries) []); reflexivity.
Defined.

Lemma openNotebook_download_failure_witness :
  openNotebook sample_rt sample_fetch "https://rath.example/gone.krf" []
  = ([Notify (download_notebook_error (Error "Not Found"))], Ok tt).
Proof.
  apply (openNotebook_download_failure sample_rt sample_fetch
           "https://rath.example/gone.krf" (Error "Not Found") []).
  reflexivity.
Defined.

Lemma getWorkspaces_loads_once_witness :
  getWorkspaces sample_api 1 (fst (fst (getWorkspaces sample_api 1 sample_store)))
  = (fst (fst (getWorkspaces sample_api 1 sample_store)), [], None).
Proof.
  apply (getWorkspaces_loads_once sample_api 1 sample_store _
           [Requested "https://rath.example/api/ce/organization/workspace/list" 1]
           sample_workspaces).
  reflexivity.
Defined.

Lemma getWorkspaces_writes_one_organization_witness :
  let st' := fst (fst (getWorkspaces sample_api 1 sample_store)) in
  (exists which,
      find_organization sample_store 1 = Some which
      /\ find_organization st' 1 = Some (with_workspaces sample_workspaces which))
  /\ (forall other : Z, other <> 1%Z ->
        find_organization st' other = find_organization sample_store other)
  /\ UserStore.login st' = UserStore.login sample_store
  /\ UserStore.signup st' = UserStore.signup sample_store.
Proof.
  apply (getWorkspaces_writes_one_organization sample_api 1 sample_store _
           [Requested "https://rath.example/api/ce/organization/workspace/list" 1]
           sample_workspaces).
  reflexivity.
Defined.

Lemma getNotebooks_needs_loaded_workspaces_witness :
  getNotebooks sample_api 1 10 true sample_store = (sample_store, [], None).
Proof.
  apply (getNotebooks_needs_loaded_workspaces sample_api 1 10 true sample_store
           (sample_organization 1 "acme")); reflexivity.
Defined.

Lemma getNotebooks_after_getWorkspaces_witness :
  exists st'' rest r,
    getNotebooks sample_api 1 11 false (fst (fst (getWorkspaces sample_api 1 sample_store)))
    = (st'', Requested "https://rath.example/api/ce/notebook/list" 1 :: rest, r).
Proof.
  apply (getNotebooks_after_getWorkspaces sample_api 1 11 sample_store _
           [Requested "https://rath.example/api/ce/organization/workspace/list" 1]
           sample_workspaces
           {| UserStore.workspace_id := 11; UserStore.workspace_name := "beta";
              UserStore.notebooks := None |}); reflexivity.
Defined.

Lemma getNotebooks_cached_unless_forced_witness :
  let loaded := fst (fst (getWorkspaces sample_api 1 sample_store)) in
  let st' := fst (fst (getNotebooks sample_api 1 10 false loaded)) in
  getNotebooks sample_api 1 10 false st' = (st', [], None)
  /\ exists st'' rest r,
       getNotebooks sample_api 1 10 true st'
       = (st'', Requested "https://rath.example/api/ce/notebook/list" 1 :: rest, r).
Proof.
  apply (getNotebooks_cached_unless_forced sample_api 1 10 false
           (fst (fst (getWorkspaces sample_api 1 sample_store))) _
           [Requested "https://rath.example/api/ce/notebook/list" 1] sample_notebooks).
  reflexivity.
Defined.
